(** * ops-copilot: planner, retrieval tools and job lifecycle

    A shallow embedding of [worker/agent/planner.py], [worker/agent/tools.py]
    and [worker/tasks.py], with the properties the specification states
    about them.

    Conventions.
    - Python [str] values are modelled as [string]; the text is taken to be
      ASCII, so [str.lower] maps [A-Z] to [a-z] and leaves every other
      character alone, and the regex class [\w] is [[a-zA-Z0-9_]].
    - Python [int] values are modelled as [Z].
    - A Python [set] of strings is a [gset string].
    - Code that can raise returns a [result]; [try]/[except Exception] is
      [try_except]. *)

From Stdlib Require Import ZArith Lia Ascii.
From stdpp Require Import base list strings gmap sorting pretty.

Local Open Scope Z_scope.

Set Warnings "-register-all".

(** ** Python strings *)

Module Str.

Definition code (c : ascii) : nat := Ascii.nat_of_ascii c.

Definition is_upper (c : ascii) : bool :=
  (Nat.leb 65 (code c) && Nat.leb (code c) 90)%bool.

Definition is_lower (c : ascii) : bool :=
  (Nat.leb 97 (code c) && Nat.leb (code c) 122)%bool.

Definition is_digit (c : ascii) : bool :=
  (Nat.leb 48 (code c) && Nat.leb (code c) 57)%bool.

(** The regex class [[a-zA-Z]]. *)
Definition is_alpha (c : ascii) : bool := (is_upper c || is_lower c)%bool.

(** The regex class [\w] on ASCII text. *)
Definition is_word (c : ascii) : bool :=
  (is_alpha c || is_digit c || Nat.eqb (code c) 95)%bool.

Definition lower_char (c : ascii) : ascii :=
  if is_upper c then Ascii.ascii_of_nat (code c + 32) else c.

(** [s.lower()] *)
Fixpoint lower (s : string) : string :=
  match s with
  | EmptyString => EmptyString
  | String c s' => String (lower_char c) (lower s')
  end.

(** [s.startswith(p)] *)
Fixpoint startswith (s p : string) : bool :=
  match p, s with
  | EmptyString, _ => true
  | String a p', String b s' => (Ascii.eqb a b && startswith s' p')%bool
  | String _ _, EmptyString => false
  end.

(** [needle in s] *)
Fixpoint contains (s needle : string) : bool :=
  (startswith s needle ||
   match s with
   | EmptyString => false
   | String _ s' => contains s' needle
   end)%bool.

(** [s.endswith(p)] *)
Definition endswith (s p : string) : bool :=
  startswith (String.rev s) (String.rev p).

(** [s[:n]] *)
Fixpoint take (n : nat) (s : string) : string :=
  match n, s with
  | S n', String c s' => String c (take n' s')
  | _, _ => EmptyString
  end.

(** [sep.join(l)] *)
Fixpoint join (sep : string) (l : list string) : string :=
  match l with
  | [] => EmptyString
  | [x] => x
  | x :: l' => x +:+ sep +:+ join sep l'
  end.

(** Truthiness of a string: non-empty. *)
Definition truthy (s : string) : bool :=
  match s with EmptyString => false | String _ _ => true end.

(** *** [re.findall(r"\b[a-zA-Z]{3,}\b", s)]

    [\b] holds between two positions exactly when one side is a word
    character and the other is not (the ends of the text count as
    non-word). *)

Definition word_opt (c : option ascii) : bool :=
  match c with Some c => is_word c | None => false end.

Definition boundary (before after : option ascii) : bool :=
  xorb (word_opt before) (word_opt after).

Definition head (s : string) : option ascii :=
  match s with EmptyString => None | String c _ => Some c end.

(** The longest prefix of letters, and what follows it. *)
Fixpoint span_alpha (s : string) : string * string :=
  match s with
  | String c s' =>
      if is_alpha c
      then let '(run, rest) := span_alpha s' in (String c run, rest)
      else (EmptyString, s)
  | EmptyString => (EmptyString, EmptyString)
  end.

Fixpoint last_char (s : string) : option ascii :=
  match s with
  | EmptyString => None
  | String c EmptyString => Some c
  | String _ s' => last_char s'
  end.

(** One match attempt anchored at the current position; [prev] is the
    character before it.  The greedy [{3,}] takes the whole run of
    letters; giving characters back cannot help, because a position
    inside a run of letters is never a word boundary. *)
Definition match_here (prev : option ascii) (s : string) : option string :=
  if boundary prev (head s) then
    let '(run, rest) := span_alpha s in
    if (Nat.leb 3 (String.length run) && boundary (last_char run) (head rest))%bool
    then Some run else None
  else None.

(** The left-to-right scan of [findall]: after a match the scan resumes
    behind it ([skip] counts the characters of the match still to pass);
    after a failed attempt it moves one character on. *)
Fixpoint findall_from (prev : option ascii) (skip : nat) (s : string)
  : list string :=
  match s with
  | EmptyString => []
  | String c s' =>
      match skip with
      | S k => findall_from (Some c) k s'
      | O =>
          match match_here prev s with
          | Some w => w :: findall_from (Some c) (String.length w - 1) s'
          | None => findall_from (Some c) 0 s'
          end
      end
  end.

Definition findall_words (s : string) : list string :=
  findall_from None 0 s.

End Str.

(** ** Exceptions *)

(** A raised exception, with the text [str(e)] gives for it. *)
Inductive exn : Type := Exception (msg : string).

Definition exn_str (e : exn) : string := match e with Exception m => m end.

Inductive result (A : Type) : Type :=
| Ok (a : A)
| Raise (e : exn).

Arguments Ok {A} a.
Arguments Raise {A} e.

#[global] Instance result_ret : MRet result := fun _ a => Ok a.

#[global] Instance result_bind : MBind result := fun _ _ k r =>
  match r with
  | Ok a => k a
  | Raise e => Raise e
  end.

(** [try: body  except Exception as e: handler(e)] *)
Definition try_except {A} (body : result A) (handler : exn -> result A)
  : result A :=
  match body with
  | Ok a => Ok a
  | Raise e => handler e
  end.

(** ** The plan data model *)

Inductive Tool : Type := search_docs_tool | query_incidents_tool.

(** Modelled from the spec: [api.schemas.PlanStep] is not among the
    sources; section 3 gives its fields. *)
Record PlanStep : Type := mkPlanStep {
  step_number : Z;
  action : string;
  tool : option Tool;
  tool_input : option string
}.

(** Modelled from the spec: [api.schemas.AgentPlan] is not among the
    sources; section 3 gives its fields. *)
Record AgentPlan : Type := mkAgentPlan {
  reasoning : string;
  steps : list PlanStep
}.

(** ** worker/agent/planner.py *)

Module Planner.

Definition DOC_KEYWORDS : list string :=
  [ "how"; "what"; "guide"; "tutorial"; "troubleshoot"; "debug"; "fix";
    "solve"; "help"; "explain"; "documentation"; "runbook"; "procedure";
    "steps"; "deploy"; "deployment"; "database"; "connection"; "timeout";
    "error"; "configure"; "setup"; "install" ].

Definition INCIDENT_KEYWORDS : list string :=
  [ "incident"; "outage"; "issue"; "problem"; "failure"; "down"; "alert";
    "critical"; "recent"; "past"; "history"; "similar"; "previous";
    "resolved"; "root cause"; "postmortem" ].

Definition stop_words : gset string :=
  list_to_set
    [ "the"; "and"; "for"; "are"; "but"; "not"; "you"; "all"; "can"; "had";
      "her"; "was"; "one"; "our"; "out"; "has"; "have"; "been"; "would";
      "could"; "there"; "their"; "will"; "when"; "who"; "with"; "this";
      "that"; "from"; "how" ].

Definition _extract_keywords (text : string) : list string :=
  let words := Str.findall_words (Str.lower text) in
  filter (fun w => w ∉ stop_words) words.

Definition _needs_docs (text : string) : bool :=
  let text_lower := Str.lower text in
  existsb (fun keyword => Str.contains text_lower keyword) DOC_KEYWORDS.

Definition _needs_incidents (text : string) : bool :=
  let text_lower := Str.lower text in
  existsb (fun keyword => Str.contains text_lower keyword) INCIDENT_KEYWORDS.

Definition nonempty {A} (l : list A) : bool :=
  match l with [] => false | _ :: _ => true end.

(** The loop-free body of [_create_deterministic_plan]: the list [steps]
    and the counter [step_num] are threaded through the two conditional
    appends and the final one. *)
Definition plan_steps (needs_docs needs_incidents : bool) (query : string)
  : list PlanStep :=
  let steps := [] in
  let step_num := 1 in
  let '(steps, step_num) :=
    if needs_docs then
      (steps ++ [mkPlanStep step_num
                   "Search documentation for relevant runbooks"
                   (Some search_docs_tool) (Some query)],
       step_num + 1)
    else (steps, step_num) in
  let '(steps, step_num) :=
    if needs_incidents then
      (steps ++ [mkPlanStep step_num
                   "Query incident database for related incidents"
                   (Some query_incidents_tool) (Some query)],
       step_num + 1)
    else (steps, step_num) in
  steps ++ [mkPlanStep step_num
              "Synthesize findings and provide recommendation"
              None None].

Definition _create_deterministic_plan (text : string) : AgentPlan :=
  let keywords := _extract_keywords text in
  let query :=
    if nonempty keywords then Str.join " " (take 5 keywords)
    else Str.take 50 text in
  let needs_docs := _needs_docs text in
  let needs_incidents := _needs_incidents text in
  let '(needs_docs, needs_incidents) :=
    if (negb needs_docs && negb needs_incidents)%bool
    then (true, true) else (needs_docs, needs_incidents) in
  let steps := plan_steps needs_docs needs_incidents query in
  let reasoning :=
    "Based on the request, I identified the following needs: "
    +:+ (if needs_docs then "documentation search" else EmptyString)
    +:+ (if (needs_docs && needs_incidents)%bool then " and " else EmptyString)
    +:+ (if needs_incidents then "incident history lookup" else EmptyString)
    +:+ ". Key topics: "
    +:+ (if nonempty keywords then Str.join ", " (take 5 keywords)
         else "general inquiry")
    +:+ "." in
  mkAgentPlan reasoning steps.

(** *** The LLM-backed planner *)

(** The environment variables the planner reads ([os.getenv]). *)
Record Environ : Type := mkEnviron {
  USE_REAL_LLM : option string;
  LLM_API_KEY : option string;
  LLM_MODEL : option string
}.

Definition getenv (value : option string) (default : string) : string :=
  match value with Some v => v | None => default end.

(** A decoded JSON document; an object keeps its members as the decoder
    built them, one entry per key. *)
Inductive JSON : Type :=
| JNull
| JBool (b : bool)
| JNumber (n : Z)
| JString (s : string)
| JArray (items : list JSON)
| JObject (members : list (string * JSON)).

Fixpoint assoc (k : string) (members : list (string * JSON)) : option JSON :=
  match members with
  | [] => None
  | (k', v) :: rest => if String.eqb k k' then Some v else assoc k rest
  end.

(** [v[k]] for a string key [k]. *)
Definition getitem_key (v : JSON) (k : string) : result JSON :=
  match v with
  | JObject members =>
      match assoc k members with
      | Some x => Ok x
      | None => Raise (Exception k)
      end
  | JArray _ => Raise (Exception "list indices must be integers or slices, not str")
  | JString _ => Raise (Exception "string indices must be integers, not 'str'")
  | _ => Raise (Exception "object is not subscriptable")
  end.

(** [v[0]] *)
Definition getitem_0 (v : JSON) : result JSON :=
  match v with
  | JArray (x :: _) => Ok x
  | JArray [] => Raise (Exception "list index out of range")
  | JString (String c _) => Ok (JString (String c EmptyString))
  | JString EmptyString => Raise (Exception "string index out of range")
  | JObject _ => Raise (Exception "0")
  | _ => Raise (Exception "object is not subscriptable")
  end.

Record Response : Type := mkResponse {
  status_code : Z;
  body : string
}.

(** What [httpx.post] is given: the bearer credential, the model name and
    the prompt. *)
Record ChatRequest : Type := mkChatRequest {
  bearer : string;
  model : string;
  prompt : string
}.

(** [response.raise_for_status()] *)
Definition raise_for_status (r : Response) : result unit :=
  if ((200 <=? status_code r) && (status_code r <? 300))%bool
  then Ok tt else Raise (Exception "HTTPStatusError").

Section LLM.

(** The fixed instruction template around the request text. *)
Variables prompt_head prompt_tail : string.
(** The network: the outcome of the one outbound call. *)
Variable httpx_post : ChatRequest -> result Response.
(** [json.loads], also behind [response.json()]. *)
Variable json_loads : string -> result JSON.
(** Building an [AgentPlan] from the decoded object: validation against
    [api.schemas], which is not among the sources. *)
Variable AgentPlan_validate : JSON -> result AgentPlan.

(** [data["choices"][0]["message"]["content"]] *)
Definition message_content (data : JSON) : result JSON :=
  choices ← getitem_key data "choices";
  choice ← getitem_0 choices;
  message ← getitem_key choice "message";
  getitem_key message "content".

(** [json.loads(content)]: only text can be decoded. *)
Definition loads_content (content : JSON) : result JSON :=
  match content with
  | JString c => json_loads c
  | _ => Raise (Exception "the JSON object must be str, bytes or bytearray")
  end.

Definition chat_request (api_key model text : string) : ChatRequest :=
  mkChatRequest api_key model (prompt_head +:+ text +:+ prompt_tail).

(** The body of the [try] block in [_create_llm_plan]. *)
Definition llm_call (api_key model text : string) : result AgentPlan :=
  response ← httpx_post (chat_request api_key model text);
  _ ← raise_for_status response;
  data ← json_loads (body response);
  content ← message_content data;
  plan_data ← loads_content content;
  AgentPlan_validate plan_data.

Definition api_key_of (env : Environ) : string :=
  getenv (LLM_API_KEY env) EmptyString.

Definition model_of (env : Environ) : string :=
  getenv (LLM_MODEL env) "gpt-4".

Definition _create_llm_plan (env : Environ) (text : string)
  : result AgentPlan :=
  let api_key := api_key_of env in
  let model := model_of env in
  if negb (Str.truthy api_key) then
    Ok (_create_deterministic_plan text)
  else
    try_except (llm_call api_key model text)
      (fun e => Ok (_create_deterministic_plan text)).

Definition use_llm (env : Environ) : bool :=
  String.eqb (Str.lower (getenv (USE_REAL_LLM env) "false")) "true".

Definition create_plan (env : Environ) (text : string) : result AgentPlan :=
  if use_llm env then _create_llm_plan env text
  else Ok (_create_deterministic_plan text).

(** The ways the LLM path can fail for a request. *)
Inductive LLMFailure (env : Environ) (text : string) : Prop :=
| missing_credential :
    Str.truthy (api_key_of env) = false ->
    LLMFailure env text
| network_error e :
    httpx_post (chat_request (api_key_of env) (model_of env) text) = Raise e ->
    LLMFailure env text
| error_status r :
    httpx_post (chat_request (api_key_of env) (model_of env) text) = Ok r ->
    ~ (200 <= status_code r < 300) ->
    LLMFailure env text
| malformed_body r e :
    httpx_post (chat_request (api_key_of env) (model_of env) text) = Ok r ->
    json_loads (body r) = Raise e ->
    LLMFailure env text
| missing_content r data e :
    httpx_post (chat_request (api_key_of env) (model_of env) text) = Ok r ->
    json_loads (body r) = Ok data ->
    message_content data = Raise e ->
    LLMFailure env text
| malformed_content r data content e :
    httpx_post (chat_request (api_key_of env) (model_of env) text) = Ok r ->
    json_loads (body r) = Ok data ->
    message_content data = Ok content ->
    loads_content content = Raise e ->
    LLMFailure env text
| schema_mismatch r data content plan_data e :
    httpx_post (chat_request (api_key_of env) (model_of env) text) = Ok r ->
    json_loads (body r) = Ok data ->
    message_content data = Ok content ->
    loads_content content = Ok plan_data ->
    AgentPlan_validate plan_data = Raise e ->
    LLMFailure env text
| other_exception e :
    llm_call (api_key_of env) (model_of env) text = Raise e ->
    LLMFailure env text.

End LLM.

End Planner.

(** ** Python's [list.sort(key=..., reverse=True)]

    The sort is stable, also with [reverse=True]: elements with equal keys
    keep their order.  It is modelled by a stable insertion sort: an element
    goes behind exactly those elements whose key is strictly greater. *)

Section SortReverse.

Context {A K : Type} (key : A -> K) (ltb : K -> K -> bool).

Fixpoint insert_desc (x : A) (l : list A) : list A :=
  match l with
  | [] => [x]
  | y :: l' => if ltb (key x) (key y) then y :: insert_desc x l' else x :: l
  end.

Definition sort_reverse (l : list A) : list A := foldr insert_desc [] l.

End SortReverse.

(** Python's order on pairs: the first components decide unless they are
    equal. *)
Definition pair_ltb (a b : Z * string) : bool :=
  if a.1 =? b.1 then String.ltb a.2 b.2 else a.1 <? b.1.

(** ** worker/agent/tools.py *)

Module Tools.

(** The query's keyword set, as both tools build it. *)
Definition keyword_set (query : string) : gset string :=
  list_to_set (Str.findall_words (Str.lower query)).

(** [sum(1 for kw in keywords if kw in text)] *)
Definition count_matches (keywords : gset string) (text : string) : Z :=
  Z.of_nat (length (filter (fun kw => Str.contains text kw = true)
                      (elements keywords))).

(** *** Document search *)

(** An entry of the runbooks directory: its name and what reading it as
    UTF-8 text gives. *)
Record DirEntry : Type := mkDirEntry {
  name : string;
  read_text : result string
}.

(** The directory, in enumeration order; [None] when it does not exist. *)
Definition Corpus : Type := option (list DirEntry).

Record DocHit : Type := mkDocHit {
  filename : string;
  title : string;
  snippet : string;
  key_points : list string;
  relevance_score : Z
}.

(** [RUNBOOKS_DIR.glob("*.md")] *)
Definition glob_md (entries : list DirEntry) : list DirEntry :=
  filter (fun e => Str.endswith (name e) ".md" = true) entries.

Section SearchDocs.

(** The first heading of a document, when it has one. *)
Variable first_heading : string -> option string.
(** [Path.stem] *)
Variable stem : string -> string.
(** The excerpt around a matching keyword; it depends on the order in
    which the keyword set is enumerated. *)
Variable _extract_snippet : string -> gset string -> string.
Variable _extract_key_points : string -> list string.

(** One turn of the loop over the files: [results] is returned with the
    file's hit appended, or as it was when the file does not match or
    reading it raises. *)
Definition scan_file (keywords : gset string) (results : list DocHit)
    (md_file : DirEntry) : list DocHit :=
  match read_text md_file with
  | Raise _ => results
  | Ok content =>
      let content_lower := Str.lower content in
      let matches := count_matches keywords content_lower in
      if 0 <? matches then
        let title :=
          match first_heading content with
          | Some t => t
          | None => stem (name md_file)
          end in
        results ++ [mkDocHit (name md_file) title
                      (_extract_snippet content keywords)
                      (_extract_key_points content) matches]
      else results
  end.

Definition search_docs (corpus : Corpus) (query : string) : list DocHit :=
  let results := [] in
  let keywords := keyword_set query in
  match corpus with
  | None => results
  | Some entries =>
      let results := foldl (scan_file keywords) results (glob_md entries) in
      let results := sort_reverse relevance_score Z.ltb results in
      take 5 results
  end.

End SearchDocs.

(** *** Incident search *)

(** A time-zone aware timestamp: the instant, and the offset it is shown
    in.  Timestamps are ordered by their instants. *)
Record datetime : Type := mkDatetime {
  instant : Z;
  utcoffset : Z
}.

(** A row of the [incidents] table ([api/models.py]); the nullable columns
    are options. *)
Record Incident : Type := mkIncident {
  inc_id : string;
  inc_title : string;
  description : option string;
  severity : string;
  status : string;
  service : option string;
  root_cause : option string;
  resolution : option string;
  created_at : datetime;
  resolved_at : option datetime;
  tags : option (list string)
}.

(** The table, in storage order. *)
Definition Storage : Type := list Incident.

(** The dictionary built for a fetched row.  The column [created_at] is not
    nullable, so its entry is always the ISO text of the timestamp; the
    entries of nullable columns are options. *)
Record IncidentDict : Type := mkIncidentDict {
  d_id : string;
  d_title : string;
  d_description : option string;
  d_severity : string;
  d_status : string;
  d_service : option string;
  d_root_cause : option string;
  d_resolution : option string;
  d_created_at : string;
  d_resolved_at : option string;
  d_tags : option (list string)
}.

(** The dictionary with its [relevance_score] entry. *)
Record IncidentHit : Type := mkIncidentHit {
  fields : IncidentDict;
  score : Z
}.

(** A read through the session: the rows that satisfy [where_], newest
    first, at most [limit] of them.  Rows created at the same instant come
    in storage order. *)
Record Select : Type := mkSelect {
  where_ : Incident -> bool;
  limit : nat
}.

Definition order_by_created_at_desc (rows : list Incident) : list Incident :=
  sort_reverse (fun r => instant (created_at r)) Z.ltb rows.

Definition run_select (q : Select) (rows : Storage) : list Incident :=
  take (limit q) (order_by_created_at_desc (List.filter (where_ q) rows)).

(** Computations on a session: they return a value and the storage they
    leave behind. *)
Definition DB (A : Type) : Type := Storage -> A * Storage.

(** [db.query(Incident).filter(...).order_by(...).limit(...).all()] *)
Definition query_all (q : Select) : DB (list Incident) :=
  fun db => (run_select q db, db).

(** [column.ilike("%kw%")] for a keyword of lower-case letters; a null
    column matches nothing. *)
Definition ilike (column : option string) (kw : string) : bool :=
  match column with
  | Some v => Str.contains (Str.lower v) kw
  | None => false
  end.

(** The disjunction [or_] of the conditions: one for each of the five
    searched columns and every keyword. *)
Definition any_condition (keywords : gset string) (r : Incident) : bool :=
  existsb (fun kw =>
    ilike (Some (inc_title r)) kw || ilike (description r) kw ||
    ilike (service r) kw || ilike (root_cause r) kw ||
    ilike (resolution r) kw)%bool (elements keywords).

Section QueryIncidents.

(** [datetime.isoformat] *)
Variable isoformat : datetime -> string.

Definition to_dict (incident : Incident) : IncidentDict :=
  mkIncidentDict (inc_id incident) (inc_title incident) (description incident)
    (severity incident) (status incident) (service incident)
    (root_cause incident) (resolution incident)
    (isoformat (created_at incident))
    (isoformat <$> resolved_at incident)
    (tags incident).

(** The values of the dictionary that are strings, in insertion order;
    [tags] is a list and never among them. *)
Definition string_values (d : IncidentDict) : list string :=
  omap (fun v => v)
    [ Some (d_id d); Some (d_title d); d_description d;
      Some (d_severity d); Some (d_status d); d_service d;
      d_root_cause d; d_resolution d; Some (d_created_at d);
      d_resolved_at d ].

Definition searchable_text (d : IncidentDict) : string :=
  Str.join " "
    (Str.lower <$> List.filter Str.truthy (string_values d)).

Definition relevance (keywords : gset string) (d : IncidentDict) : Z :=
  count_matches keywords (searchable_text d).

Definition sort_key (h : IncidentHit) : Z * string :=
  (score h, d_created_at (fields h)).

Definition query_incidents (query : string) : DB (list IncidentHit) :=
  fun db =>
    let keywords := keyword_set query in
    let '(incidents, db) :=
      if bool_decide (keywords = ∅) then
        query_all (mkSelect (fun _ => true) 5) db
      else
        query_all (mkSelect (any_condition keywords) 10) db in
    let results := to_dict <$> incidents in
    let results :=
      (fun d => mkIncidentHit d (relevance keywords d)) <$> results in
    let results := sort_reverse sort_key pair_ltb results in
    (take 5 results, db).

End QueryIncidents.

End Tools.

(** ** worker/tasks.py *)

Module Tasks.

(** Modelled from the spec: [api.schemas.RequestStatus] is not among the
    sources; section 4.7 names the four states. *)
Inductive RequestStatus : Type := QUEUED | RUNNING | DONE | FAILED.

Section ProcessRequest.

(** The answer and the tool-call log entries of [api.schemas], which is
    not among the sources; they are stored as they are. *)
Variables AgentResult ToolCall : Type.

(** A row of the [requests] table ([api/models.py]), with the columns a
    job run reads or writes; the JSON columns hold the dumped values.
    The primary key [id] is the key of the row in the table. *)
Record Request : Type := mkRequest {
  r_text : string;
  r_status : RequestStatus;
  r_plan : option AgentPlan;
  r_tool_calls : list ToolCall;
  r_result : option AgentResult;
  r_error : option string;
  r_started_at : option Tools.datetime;
  r_completed_at : option Tools.datetime
}.

(** A database session: the committed table, and the loaded row object
    [db_request] (the row of [request_id]) with the attribute writes not
    yet committed. *)
Record Session : Type := mkSession {
  table : gmap string Request;
  request_id : string;
  db_request : Request
}.

(** A step of the job: it may write to the session and it may raise. *)
Definition Job (A : Type) : Type := Session -> Session * result A.

Definition job_ret {A} (a : A) : Job A := fun s => (s, Ok a).

Definition job_bind {A B} (m : Job A) (k : A -> Job B) : Job B :=
  fun s =>
    match m s with
    | (s', Ok a) => k a s'
    | (s', Raise e) => (s', Raise e)
    end.

(** [try: body  except Exception as e: handler(e)]: the handler runs in
    the session as the body left it. *)
Definition job_try {A} (body : Job A) (handler : exn -> Job A) : Job A :=
  fun s =>
    match body s with
    | (s', Ok a) => (s', Ok a)
    | (s', Raise e) => handler e s'
    end.

(** An attribute write on [db_request]. *)
Definition write (f : Request -> Request) : Job unit :=
  fun s => (mkSession (table s) (request_id s) (f (db_request s)), Ok tt).

Definition read {A} (f : Request -> A) : Job A :=
  fun s => (s, Ok (f (db_request s))).

(** [db.commit()]: the pending writes reach the table. *)
Definition commit : Job unit :=
  fun s =>
    (mkSession (<[request_id s := db_request s]> (table s))
       (request_id s) (db_request s), Ok tt).

(** [db.rollback()]: the pending writes are dropped; the row object
    shows the committed row again. *)
Definition rollback : Job unit :=
  fun s =>
    (mkSession (table s) (request_id s)
       (default (db_request s) (table s !! request_id s)), Ok tt).

(** A call into code that does not write to the session. *)
Definition call {A} (r : result A) : Job A := fun s => (s, r).

Definition set_running (t : Tools.datetime) (r : Request) : Request :=
  mkRequest (r_text r) RUNNING (r_plan r) (r_tool_calls r)
    (r_result r) (r_error r) (Some t) (r_completed_at r).

Definition set_plan (p : AgentPlan) (r : Request) : Request :=
  mkRequest (r_text r) (r_status r) (Some p) (r_tool_calls r)
    (r_result r) (r_error r) (r_started_at r) (r_completed_at r).

Definition set_done (res : AgentResult) (tcs : list ToolCall)
    (t : Tools.datetime) (r : Request) : Request :=
  mkRequest (r_text r) DONE (r_plan r) tcs (Some res)
    (r_error r) (r_started_at r) (Some t).

Definition set_failed (msg : string) (t : Tools.datetime) (r : Request)
  : Request :=
  mkRequest (r_text r) FAILED (r_plan r) (r_tool_calls r)
    (r_result r) (Some msg) (r_started_at r) (Some t).

(** The planner, as [process_request] sees it. *)
Variable create_plan : string -> result AgentPlan.
(** [worker.agent.executor.execute_plan], which is not among the
    sources: it returns the answer with the tool-call log or lets a
    tool's exception through, and only reads through the session it is
    given (section 4.5). *)
Variable execute_plan :
  string -> AgentPlan -> result (AgentResult * list ToolCall).
(** What [datetime.utcnow()] gives when the job starts and when it
    ends. *)
Variables t_start t_end : Tools.datetime.

(** The [try] block. *)
Definition attempt : Job AgentResult :=
  job_bind (write (set_running t_start)) (fun _ =>
  job_bind commit (fun _ =>
  job_bind (read r_text) (fun text =>
  job_bind (call (create_plan text)) (fun plan =>
  job_bind (write (set_plan plan)) (fun _ =>
  job_bind commit (fun _ =>
  job_bind (call (execute_plan text plan)) (fun '(res, tool_calls) =>
  job_bind (write (set_done res tool_calls t_end)) (fun _ =>
  job_bind commit (fun _ =>
  job_ret res))))))))).

(** The [except] block. *)
Definition on_exception (e : exn) : Job AgentResult :=
  job_bind rollback (fun _ =>
  job_bind (write (set_failed (exn_str e) t_end)) (fun _ =>
  job_bind commit (fun _ =>
  call (Raise e)))).

(** [process_request]: the table it leaves behind, and what it returns
    or raises. *)
Definition process_request (requests : gmap string Request)
    (rid : string) : gmap string Request * result AgentResult :=
  match requests !! rid with
  | None =>
      (requests, Raise (Exception ("Request " +:+ rid +:+ " not found")))
  | Some row =>
      let '(s, r) :=
        job_try attempt on_exception (mkSession requests rid row) in
      (table s, r)
  end.

End ProcessRequest.

Arguments mkRequest {AgentResult ToolCall}.
Arguments r_text {AgentResult ToolCall} r.
Arguments r_status {AgentResult ToolCall} r.
Arguments r_plan {AgentResult ToolCall} r.
Arguments r_tool_calls {AgentResult ToolCall} r.
Arguments r_result {AgentResult ToolCall} r.
Arguments r_error {AgentResult ToolCall} r.
Arguments r_started_at {AgentResult ToolCall} r.
Arguments r_completed_at {AgentResult ToolCall} r.

End Tasks.

(** ** worker/agent/tools.py: the text helpers

    [_extract_snippet], [_extract_key_points] and the title search of
    [search_docs].  The keyword set is iterated in some order; the snippet
    takes the keywords as the list in that order. *)

Module Text.

(** [str.isspace] on ASCII characters; [str.strip] and the regex class [\s]
    use it. *)
Definition is_space (c : ascii) : bool :=
  ((Nat.leb 9 (Str.code c) && Nat.leb (Str.code c) 13) ||
   (Nat.leb 28 (Str.code c) && Nat.leb (Str.code c) 32))%bool.

Definition is_newline (c : ascii) : bool := Nat.eqb (Str.code c) 10.

Fixpoint lstrip (s : string) : string :=
  match s with
  | String c s' => if is_space c then lstrip s' else s
  | EmptyString => EmptyString
  end.

Fixpoint rstrip (s : string) : string :=
  match s with
  | EmptyString => EmptyString
  | String c s' =>
      match rstrip s' with
      | EmptyString => if is_space c then EmptyString else String c EmptyString
      | String _ _ as r => String c r
      end
  end.

(** [s.strip()] *)
Definition strip (s : string) : string := rstrip (lstrip s).

(** [s[n:]] *)
Fixpoint drop (n : nat) (s : string) : string :=
  match n, s with
  | S n', String _ s' => drop n' s'
  | _, _ => s
  end.

(** The lowest index at which [needle] occurs in [s]. *)
Fixpoint index_of (s needle : string) : option nat :=
  if Str.startswith s needle then Some O
  else match s with
       | EmptyString => None
       | String _ s' => S <$> index_of s' needle
       end.

(** The highest index at which [needle] occurs in [s]. *)
Fixpoint rindex_of (s needle : string) : option nat :=
  match s with
  | EmptyString =>
      match needle with EmptyString => Some O | String _ _ => None end
  | String _ s' =>
      match rindex_of s' needle with
      | Some i => Some (S i)
      | None => if Str.startswith s needle then Some O else None
      end
  end.

(** [s.find(needle, start)] for [0 <= start]: an index, or [-1]. *)
Definition find (s needle : string) (start : Z) : Z :=
  if Z.of_nat (String.length s) <? start then -1
  else
    match index_of (drop (Z.to_nat start) s) needle with
    | Some i => start + Z.of_nat i
    | None => -1
    end.

(** [s.rfind(needle, 0, stop)] for [0 <= stop]: an index, or [-1]. *)
Definition rfind (s needle : string) (stop : Z) : Z :=
  match rindex_of (Str.take (Z.to_nat stop) s) needle with
  | Some i => Z.of_nat i
  | None => -1
  end.

(** [s[start:stop]]: a negative bound counts from the end. *)
Definition slice (s : string) (start stop : Z) : string :=
  let len := Z.of_nat (String.length s) in
  let bound i := if i <? 0 then Z.max 0 (i + len) else Z.min i len in
  Str.take (Z.to_nat (bound stop - bound start))
    (drop (Z.to_nat (bound start)) s).

(** The body of the loop of [_extract_snippet], for a keyword found at
    [pos]. *)
Definition snippet_around (content : string) (context_chars : nat) (pos : Z)
  : string :=
  let len := Z.of_nat (String.length content) in
  let half := Z.of_nat context_chars / 2 in
  let start := Z.max 0 (pos - half) in
  let stop := Z.min len (pos + half) in
  let start := if 0 <? start then find content " " start + 1 else start in
  let stop := if stop <? len then rfind content " " stop else stop in
  let snippet := strip (slice content start stop) in
  if 0 <? start then "..." +:+ snippet +:+ "..." else snippet +:+ "...".

(** The loop over the keywords: the first one that occurs decides. *)
Fixpoint first_snippet (content content_lower : string) (context_chars : nat)
    (keywords : list string) : option string :=
  match keywords with
  | [] => None
  | kw :: rest =>
      match index_of content_lower kw with
      | Some pos => Some (snippet_around content context_chars (Z.of_nat pos))
      | None => first_snippet content content_lower context_chars rest
      end
  end.

Definition _extract_snippet (content : string) (keywords : list string)
    (context_chars : nat) : string :=
  let content_lower := Str.lower content in
  match first_snippet content content_lower context_chars keywords with
  | Some snippet => snippet
  | None => strip (Str.take context_chars content) +:+ "..."
  end.

(** *** The line patterns

    [^M\s+(.+)$] with [re.MULTILINE], for a marker [M] at the start of a
    line: white space, then the rest of a line as the group. *)

(** The longest prefix of characters that satisfy [p], and what follows. *)
Fixpoint span (p : ascii -> bool) (s : string) : string * string :=
  match s with
  | String c s' =>
      if p c then let '(run, rest) := span p s' in (String c run, rest)
      else (EmptyString, s)
  | EmptyString => (EmptyString, EmptyString)
  end.

(** The last character of [s] that is not a newline, with its index. *)
Fixpoint last_line_char (s : string) : option (nat * ascii) :=
  match s with
  | EmptyString => None
  | String c s' =>
      match last_line_char s' with
      | Some (i, d) => Some (S i, d)
      | None => if is_newline c then None else Some (O, c)
      end
  end.

(** [\s+(.+)$] at the head of [r]: the group, and how many characters the
    match takes.  The greedy [\s+] takes the whole run of white space, which
    may span lines; [.+] then takes what is left of the line.  When the
    white space runs to the end of the text, [\s+] gives characters back
    until [.] finds one that is not a newline. *)
Definition match_text (r : string) : option (string * nat) :=
  let '(ws, rest) := span is_space r in
  match ws with
  | EmptyString => None
  | String _ ws' =>
      match rest with
      | String _ _ =>
          let '(group, _) := span (fun c => negb (is_newline c)) rest in
          Some (group, (String.length ws + String.length group)%nat)
      | EmptyString =>
          match last_line_char ws' with
          | Some (i, c) => Some (String c EmptyString, (i + 2)%nat)
          | None => None
          end
      end
  end.

(** A marker at the head of [s]: what follows it, and its length. *)
Definition Marker : Type := string -> option (string * nat).

(** [[-*]] *)
Definition bullet_marker : Marker := fun s =>
  match s with
  | String c r =>
      if (Nat.eqb (Str.code c) 45 || Nat.eqb (Str.code c) 42)%bool
      then Some (r, 1%nat) else None
  | EmptyString => None
  end.

(** [\d+\.] *)
Definition numbered_marker : Marker := fun s =>
  let '(digits, rest) := span Str.is_digit s in
  match digits, rest with
  | String _ _, String c r =>
      if Nat.eqb (Str.code c) 46
      then Some (r, S (String.length digits)) else None
  | _, _ => None
  end.

(** [#] *)
Definition heading_marker : Marker := fun s =>
  match s with
  | String c r => if Nat.eqb (Str.code c) 35 then Some (r, 1%nat) else None
  | EmptyString => None
  end.

Definition match_item (marker : Marker) (s : string) : option (string * nat) :=
  match marker s with
  | Some (r, m) =>
      match match_text r with
      | Some (group, n) => Some (group, (m + n)%nat)
      | None => None
      end
  | None => None
  end.

(** [re.findall] of such a pattern: [at_bol] tells whether the position is
    at the start of a line, [skip] counts the characters of the last match
    still to pass. *)
Fixpoint findall_items (marker : Marker) (at_bol : bool) (skip : nat)
    (s : string) : list string :=
  match s with
  | EmptyString => []
  | String c s' =>
      match skip with
      | S k => findall_items marker (is_newline c) k s'
      | O =>
          match (if at_bol then match_item marker s else None) with
          | Some (group, n) =>
              group :: findall_items marker (is_newline c) (n - 1) s'
          | None => findall_items marker (is_newline c) 0 s'
          end
      end
  end.

Definition findall_lines (marker : Marker) (content : string) : list string :=
  findall_items marker true 0 content.

Definition _extract_key_points (content : string) : list string :=
  let key_points := [] in
  let key_points := key_points ++ take 5 (findall_lines bullet_marker content) in
  let key_points :=
    key_points ++ take 5 (findall_lines numbered_marker content) in
  take 10 key_points.

(** [re.search(r"^#\s+(.+)$", content, re.MULTILINE)], group 1. *)
Definition first_heading (content : string) : option string :=
  match findall_lines heading_marker content with
  | [] => None
  | t :: _ => Some t
  end.

(** [search_docs] with its helpers in place; [Path.stem] stays a
    parameter. *)
Definition search_docs (stem : string -> string)
  : Tools.Corpus -> string -> list Tools.DocHit :=
  Tools.search_docs first_heading stem
    (fun content keywords => _extract_snippet content (elements keywords) 200)
    _extract_key_points.

End Text.

(** ** api/routes.py *)

Module Routes.

(** The arguments [health_check] gives to [HealthResponse]; the services
    are the entries of the dictionary, in insertion order. *)
Record HealthResponse : Type := mkHealthResponse {
  h_status : string;
  h_timestamp : Tools.datetime;
  h_services : list (string * string)
}.

(** [health_check].  Its inputs are the outcomes of the three probes: the
    [SELECT 1], the Redis ping, and the length of the queue; and the
    time. *)
Definition health_check (db_execute redis_ping : result unit)
    (queue_len : result nat) (utcnow : Tools.datetime) : HealthResponse :=
  let services := [] in
  let services :=
    services ++
    [("database",
      match db_execute with
      | Ok _ => "healthy"
      | Raise e => "unhealthy: " +:+ exn_str e
      end)] in
  let services :=
    services ++
    [("redis",
      match redis_ping with
      | Ok _ => "healthy"
      | Raise e => "unhealthy: " +:+ exn_str e
      end)] in
  let services :=
    services ++
    [("queue",
      match queue_len with
      | Ok n => "healthy (" +:+ pretty n +:+ " jobs pending)"
      | Raise e => "unhealthy: " +:+ exn_str e
      end)] in
  let overall_status :=
    if forallb (fun v => Str.contains v "healthy") (services.*2)
    then "healthy" else "degraded" in
  mkHealthResponse overall_status utcnow services.

End Routes.

(** ** eval/run_eval.py *)

Module Eval.

(** The dictionary [AgentResult.model_dump()] gives: the three fields of
    the answer (section 3 of the specification; [api.schemas] is not among
    the sources). *)
Record ResultDict : Type := mkResultDict {
  summary : string;
  narrated_steps : list string;
  sources : list string
}.

(** What [jsonschema.validate] does: it returns, raises [ValidationError]
    with a message, or raises something else. *)
Inductive SchemaOutcome : Type :=
| SchemaValid
| SchemaInvalid (message : string)
| SchemaOther (e : exn).

Definition is_empty {A} (l : list A) : bool :=
  match l with [] => true | _ :: _ => false end.

Section Evaluation.

Variable jsonschema_validate : ResultDict -> SchemaOutcome.

Definition validate_result (r : ResultDict)
    (expects_docs expects_incidents : bool) : result (list string) :=
  let errors := [] in
  match jsonschema_validate r with
  | SchemaOther e => Raise e
  | outcome =>
      let errors :=
        match outcome with
        | SchemaInvalid message =>
            errors ++ ["Schema validation failed: " +:+ message]
        | _ => errors
        end in
      let errors :=
        if negb (Str.truthy (summary r))
        then errors ++ ["Summary is empty"] else errors in
      let errors :=
        if is_empty (narrated_steps r)
        then errors ++ ["Steps list is empty"] else errors in
      let errors :=
        if ((expects_docs || expects_incidents) && is_empty (sources r))%bool
        then errors ++ ["Expected sources but got empty list"] else errors in
      Ok errors
  end.

(** A line of [prompts.jsonl]; the two expectations may be absent. *)
Record PromptData : Type := mkPromptData {
  p_id : string;
  p_prompt : string;
  p_expects_docs : option bool;
  p_expects_incidents : option bool
}.

Record EvalResult : Type := mkEvalResult {
  prompt_id : string;
  prompt : string;
  passed : bool;
  errors : list string;
  result_dict : option ResultDict
}.

Variable create_plan : string -> result AgentPlan.
(** Opening a session, [execute_plan] and the dump of the answer. *)
Variable execute_plan : string -> AgentPlan -> result ResultDict.

(** The [try] block: the errors and the result as they stand when it ends,
    and the exception if it ended by one. *)
Definition attempt (p : PromptData)
  : list string * option ResultDict * option exn :=
  let expects_docs := default true (p_expects_docs p) in
  let expects_incidents := default true (p_expects_incidents p) in
  let errors := [] in
  match create_plan (p_prompt p) with
  | Raise e => (errors, None, Some e)
  | Ok plan =>
      let errors :=
        if is_empty (steps plan)
        then errors ++ ["Planner produced empty plan"] else errors in
      match execute_plan (p_prompt p) plan with
      | Raise e => (errors, None, Some e)
      | Ok r =>
          match validate_result r expects_docs expects_incidents with
          | Raise e => (errors, Some r, Some e)
          | Ok validation_errors =>
              (errors ++ validation_errors, Some r, None)
          end
      end
  end.

Definition run_single_eval (p : PromptData) : EvalResult :=
  let '(errors, r, raised) := attempt p in
  let errors :=
    match raised with
    | Some e => errors ++ ["Execution error: " +:+ exn_str e]
    | None => errors
    end in
  mkEvalResult (p_id p) (p_prompt p) (is_empty errors) errors r.

End Evaluation.

End Eval.

(** ** Vocabulary of the properties *)

Definition is_tool_step (s : PlanStep) : Prop :=
  tool s = Some search_docs_tool \/ tool s = Some query_incidents_tool.

(** The steps of a plan are numbered 1, 2, 3, ... *)
Definition numbered_from_one (l : list PlanStep) : Prop :=
  step_number <$> l = Z.of_nat <$> seq 1 (length l).

(** Tool steps first, then exactly one synthesis step. *)
Definition well_shaped (l : list PlanStep) : Prop :=
  l <> [] /\
  (exists init final,
      l = init ++ [final] /\ tool final = None /\ Forall is_tool_step init) /\
  numbered_from_one l.

(** [x] may stand before [y]: the key of [x] is not below that of [y]. *)
Definition not_below {A K : Type} (key : A -> K) (ltb : K -> K -> bool)
    (x y : A) : Prop :=
  ltb (key x) (key y) = false.

Fixpoint string_forallb (p : ascii -> bool) (s : string) : bool :=
  match s with
  | EmptyString => true
  | String c s' => (p c && string_forallb p s')%bool
  end.

Module Spec.

Section DocumentVocabulary.

Variable first_heading : string -> option string.
Variable stem : string -> string.
Variable _extract_snippet : string -> gset string -> string.
Variable _extract_key_points : string -> list string.

(** The hit a directory entry gives rise to, if any. *)
Definition doc_hit (keywords : gset string) (md_file : Tools.DirEntry)
  : option Tools.DocHit :=
  match Tools.read_text md_file with
  | Raise _ => None
  | Ok content =>
      let matches := Tools.count_matches keywords (Str.lower content) in
      if 0 <? matches then
        Some (Tools.mkDocHit (Tools.name md_file)
                (match first_heading content with
                 | Some t => t
                 | None => stem (Tools.name md_file)
                 end)
                (_extract_snippet content keywords)
                (_extract_key_points content) matches)
      else None
  end.

(** The matching documents, in the order the directory enumerates them. *)
Definition candidates (corpus : Tools.Corpus) (query : string)
  : list Tools.DocHit :=
  match corpus with
  | None => []
  | Some entries =>
      omap (doc_hit (Tools.keyword_set query)) (Tools.glob_md entries)
  end.

End DocumentVocabulary.

Section IncidentVocabulary.

Variable isoformat : Tools.datetime -> string.

(** The hit built for a fetched row. *)
Definition hit_of (keywords : gset string) (incident : Tools.Incident)
  : Tools.IncidentHit :=
  Tools.mkIncidentHit (Tools.to_dict isoformat incident)
    (Tools.relevance keywords (Tools.to_dict isoformat incident)).

(** The read [query_incidents] issues for a keyword set. *)
Definition select_for (keywords : gset string) : Tools.Select :=
  if bool_decide (keywords = ∅)
  then Tools.mkSelect (fun _ => true) 5
  else Tools.mkSelect (Tools.any_condition keywords) 10.

End IncidentVocabulary.

End Spec.

(** A word as the tokenizer yields it on lower-cased text: three or more
    lower-case letters. *)
Definition lower_word (w : string) : Prop :=
  (3 <= String.length w)%nat /\ string_forallb Str.is_lower w = true.

(** The text is over, or goes on with a space. *)
Definition space_led (s : string) : Prop :=
  s = EmptyString \/ exists r, s = String " " r.

(** Reading the entry gives its text. *)
Definition readable (e : Tools.DirEntry) : Prop :=
  match Tools.read_text e with Ok _ => True | Raise _ => False end.

#[global] Instance readable_dec e : Decision (readable e).
Proof. unfold readable. destruct (Tools.read_text e); apply _. Defined.

(** The group of a match is part of one line, and not empty. *)
Definition one_line (g : string) : Prop :=
  g <> EmptyString /\
  string_forallb (fun c => negb (Text.is_newline c)) g = true.

(** The text is over, or goes on with a newline. *)
Definition line_end (u : string) : Prop :=
  match u with
  | String c _ => Text.is_newline c = true
  | EmptyString => True
  end.

(** No newline in the text. *)
Definition no_newline (u : string) : Prop :=
  string_forallb (fun c => negb (Text.is_newline c)) u = true.

(** ** Sample data *)

(** A network that is down, and decoders that reject everything. *)
Definition offline : Planner.ChatRequest -> result Planner.Response :=
  fun _ => Raise (Exception "ConnectError").

Definition no_json : string -> result Planner.JSON :=
  fun _ => Raise (Exception "JSONDecodeError").

Definition no_plan : Planner.JSON -> result AgentPlan :=
  fun _ => Raise (Exception "ValidationError").

(** A request as the API stores it: queued, nothing recorded yet. *)
Definition queued_request (text : string) : Tasks.Request string string :=
  Tasks.mkRequest text Tasks.QUEUED None [] None None None None.

Definition failing_executor (text : string) (plan : AgentPlan)
  : result (string * list string) :=
  Raise (Exception "could not connect to server").

Definition deterministic_planner (text : string) : result AgentPlan :=
  Ok (Planner._create_deterministic_plan text).

(** Two stored incidents, and [isoformat] on their timestamps. *)
Definition incident_db_pool : Tools.Incident :=
  Tools.mkIncident "INC-001" "Database connection pool exhausted"
    (Some "API requests failed with a timeout while waiting for a connection")
    "high" "resolved" (Some "orders-api")
    (Some "Pool size too small for peak load")
    (Some "Raised the pool size and added an alert")
    (Tools.mkDatetime 1705314600 0) (Some (Tools.mkDatetime 1705321800 0))
    (Some ["database"; "pool"]).

Definition incident_cert : Tools.Incident :=
  Tools.mkIncident "INC-002" "TLS certificate expired"
    None "critical" "open" (Some "gateway") None None
    (Tools.mkDatetime 1707993000 0) None None.

Definition sample_incidents : Tools.Storage :=
  [incident_db_pool; incident_cert].

Definition sample_isoformat (d : Tools.datetime) : string :=
  if Tools.instant d =? 1705314600 then "2024-01-15T10:30:00+00:00"
  else if Tools.instant d =? 1705321800 then "2024-01-15T12:30:00+00:00"
  else if Tools.instant d =? 1707993000 then "2024-02-15T10:30:00+00:00"
  else "1970-01-01T00:00:00+00:00".

(** A runbooks directory: three matching documents, a file that is not
    markdown, and one that cannot be read. *)
Definition sample_corpus : Tools.Corpus :=
  Some
    [ Tools.mkDirEntry "cache.md" (Ok "Cache: flush the cache after a timeout.");
      Tools.mkDirEntry "notes.txt" (Ok "database timeout notes");
      Tools.mkDirEntry "database.md"
        (Ok "Database: check the pool, raise the timeout");
      Tools.mkDirEntry "broken.md" (Raise (Exception "UnicodeDecodeError"));
      Tools.mkDirEntry "queue.md" (Ok "Queue timeout settings") ].

(** Stand-ins for the four text helpers of [search_docs]. *)
Definition no_heading (content : string) : option string := None.

Definition whole_name (name : string) : string := name.

Definition no_snippet (content : string) (keywords : gset string) : string :=
  EmptyString.

Definition no_key_points (content : string) : list string := [].

(** The newline character, as a string. *)
Definition nl : string := String (Ascii.ascii_of_nat 10) EmptyString.

(** A tab and a carriage return. *)
Definition tab : string := String (Ascii.ascii_of_nat 9) EmptyString.

Definition cr : string := String (Ascii.ascii_of_nat 13) EmptyString.

(** A runbook in the documented format: a heading line and bullet
    lines. *)
Definition bullet_lines (items : list string) : string :=
  foldr (fun item rest => "- " +:+ item +:+ nl +:+ rest) EmptyString items.

Definition runbook (heading : string) (items : list string) : string :=
  "# " +:+ heading +:+ nl +:+ bullet_lines items.

(** A line of text that can stand behind a marker: not empty, without a
    newline, and not starting with white space. *)
Definition line_text (t : string) : Prop :=
  string_forallb (fun c => negb (Text.is_newline c)) t = true /\
  match t with
  | String c _ => Text.is_space c = false
  | EmptyString => False
  end.

(** An endpoint that answers with a plan, and the decoders for it. *)
Definition llm_plan : AgentPlan :=
  mkAgentPlan "Only the incident history is needed."
    [ mkPlanStep 1 "Find related incidents" (Some query_incidents_tool)
        (Some "database");
      mkPlanStep 2 "Synthesize findings" None None ].

Definition answering : Planner.ChatRequest -> result Planner.Response :=
  fun _ => Ok (Planner.mkResponse 200 "BODY").

Definition sample_loads (text : string) : result Planner.JSON :=
  if String.eqb text "BODY" then
    Ok (Planner.JObject
          [("choices",
            Planner.JArray
              [Planner.JObject
                 [("message",
                   Planner.JObject [("content", Planner.JString "PLAN")])]])])
  else if String.eqb text "PLAN" then Ok (Planner.JString "plan")
  else Raise (Exception "JSONDecodeError").

Definition sample_validate (plan_data : Planner.JSON) : result AgentPlan :=
  match plan_data with
  | Planner.JString _ => Ok llm_plan
  | _ => Raise (Exception "ValidationError")
  end.

(** An executor that answers. *)
Definition answering_executor (text : string) (plan : AgentPlan)
  : result (string * list string) :=
  Ok ("Restart the pool.", ["search_docs"; "query_incidents"]).

(** * Properties *)

Example lower_ex : Str.lower "How Do I?" = "how do i?".
Proof. reflexivity. Qed.

Example findall_ex :
  Str.findall_words "how do i fix abc1 the_db database-timeout x2y zzz" =
  ["how"; "fix"; "database"; "timeout"; "zzz"].
Proof. reflexivity. Qed.

Example extract_keywords_ex :
  Planner._extract_keywords "How do I handle database connection timeout?" =
  ["handle"; "database"; "connection"; "timeout"].
Proof. vm_compute. reflexivity. Qed.

Example plan_ex :
  map tool (steps (Planner._create_deterministic_plan "xyz abc 123")) =
  [Some search_docs_tool; Some query_incidents_tool; None].
Proof. vm_compute. reflexivity. Qed.

(** ** The planner *)

Ltac tool_steps :=
  repeat (constructor; [unfold is_tool_step; simpl; auto |]); constructor.

Lemma plan_steps_well_shaped needs_docs needs_incidents query :
  well_shaped (Planner.plan_steps needs_docs needs_incidents query).
Proof.
  unfold well_shaped, numbered_from_one, Planner.plan_steps.
  destruct needs_docs, needs_incidents; simpl;
    (split; [discriminate | split; [| reflexivity]]).
  - eexists [_; _], _. repeat (split; [reflexivity |]). tool_steps.
  - eexists [_], _. repeat (split; [reflexivity |]). tool_steps.
  - eexists [_], _. repeat (split; [reflexivity |]). tool_steps.
  - eexists [], _. repeat (split; [reflexivity |]). tool_steps.
Qed.

Lemma deterministic_plan_steps text :
  exists needs_docs needs_incidents query,
    steps (Planner._create_deterministic_plan text) =
    Planner.plan_steps needs_docs needs_incidents query.
Proof.
  unfold Planner._create_deterministic_plan.
  destruct (negb (Planner._needs_docs text) && negb (Planner._needs_incidents text))%bool;
    simpl; eauto.
Qed.

Lemma deterministic_plan_well_shaped text :
  well_shaped (steps (Planner._create_deterministic_plan text)).
Proof.
  destruct (deterministic_plan_steps text) as (d & i & q & ->).
  apply plan_steps_well_shaped.
Qed.

Section PlannerProperties.

Variables prompt_head prompt_tail : string.
Variable httpx_post : Planner.ChatRequest -> result Planner.Response.
Variable json_loads : string -> result Planner.JSON.
Variable AgentPlan_validate : Planner.JSON -> result AgentPlan.

Local Abbreviation create_plan :=
  (Planner.create_plan prompt_head prompt_tail httpx_post json_loads
     AgentPlan_validate).
Local Abbreviation llm_call :=
  (Planner.llm_call prompt_head prompt_tail httpx_post json_loads
     AgentPlan_validate).
Local Abbreviation LLMFailure :=
  (Planner.LLMFailure prompt_head prompt_tail httpx_post json_loads
     AgentPlan_validate).

(** C1.  With deterministic planning selected, [create_plan] returns, for
    every text, a plan whose list of steps is not empty, whose last step
    has no tool, whose earlier steps all have one of the two tools, and
    whose step numbers are 1, 2, ... in order. *)
Theorem create_plan_deterministic_shape (env : Planner.Environ) (text : string) :
  Planner.use_llm env = false ->
  exists plan,
    create_plan env text = Ok plan /\
    plan = Planner._create_deterministic_plan text /\
    steps plan <> [] /\
    (exists init final,
        steps plan = init ++ [final] /\
        tool final = None /\
        Forall (fun s => tool s = Some search_docs_tool \/
                         tool s = Some query_incidents_tool) init) /\
    step_number <$> steps plan = Z.of_nat <$> seq 1 (length (steps plan)).
Proof.
  intros Hdet. exists (Planner._create_deterministic_plan text).
  split.
  - unfold Planner.create_plan. rewrite Hdet. reflexivity.
  - split; [reflexivity |]. apply deterministic_plan_well_shaped.
Qed.

Lemma llm_failure_raises env text :
  LLMFailure env text ->
  Str.truthy (Planner.api_key_of env) = false \/
  exists e, llm_call (Planner.api_key_of env) (Planner.model_of env) text = Raise e.
Proof.
  unfold Planner.llm_call.
  intros [Hkey | e H | r H Hst | r e H Hj | r data e H Hj Hc
         | r data content e H Hj Hc Hl | r data content pd e H Hj Hc Hl Hv
         | e H]; [left; exact Hkey | right ..].
  - rewrite H. simpl. eauto.
  - rewrite H. simpl. unfold Planner.raise_for_status.
    destruct (Z.leb_spec 200 (Planner.status_code r));
      destruct (Z.ltb_spec (Planner.status_code r) 300); simpl; eauto.
    exfalso. apply Hst. lia.
  - rewrite H. simpl.
    destruct (Planner.raise_for_status r) as [[] | e']; simpl; eauto.
    rewrite Hj. simpl. eauto.
  - rewrite H. simpl.
    destruct (Planner.raise_for_status r) as [[] | e']; simpl; eauto.
    rewrite Hj. simpl. rewrite Hc. simpl. eauto.
  - rewrite H. simpl.
    destruct (Planner.raise_for_status r) as [[] | e']; simpl; eauto.
    rewrite Hj. simpl. rewrite Hc. simpl. rewrite Hl. simpl. eauto.
  - rewrite H. simpl.
    destruct (Planner.raise_for_status r) as [[] | e']; simpl; eauto.
    rewrite Hj. simpl. rewrite Hc. simpl. rewrite Hl. simpl. eauto.
  - eauto.
Qed.

(** C7.  With LLM-backed planning selected, whenever the LLM path fails
    (no credential, a network error, a status outside 2xx, a body or a
    content that is not JSON, a missing member, a plan that does not
    validate, or any other exception of the call), [create_plan] returns
    the deterministic plan of the same text; it does not raise. *)
Theorem create_plan_llm_failure_falls_back (env : Planner.Environ) (text : string) :
  Planner.use_llm env = true ->
  LLMFailure env text ->
  create_plan env text = Ok (Planner._create_deterministic_plan text).
Proof.
  intros Hllm Hfail.
  unfold Planner.create_plan, Planner._create_llm_plan.
  rewrite Hllm.
  destruct (llm_failure_raises env text Hfail) as [Hkey | [e He]].
  - rewrite Hkey. reflexivity.
  - destruct (Str.truthy (Planner.api_key_of env)); simpl; [| reflexivity].
    rewrite He. reflexivity.
Qed.

(** Whatever the LLM path does, [create_plan] returns a plan. *)
Lemma create_plan_never_raises env text :
  exists plan, create_plan env text = Ok plan.
Proof.
  unfold Planner.create_plan, Planner._create_llm_plan.
  destruct (Planner.use_llm env); [| eauto].
  destruct (negb _); [eauto |].
  destruct (Planner.llm_call _ _ _ _ _ _ _ _); simpl; eauto.
Qed.

End PlannerProperties.

Lemma existsb_false_Forall {A} (f : A -> bool) (l : list A) :
  Forall (fun x => f x = false) l -> existsb f l = false.
Proof.
  induction 1 as [| x l Hx _ IH]; simpl; [reflexivity |].
  rewrite Hx, IH. reflexivity.
Qed.

(** C2.  When the lower-cased text contains no word of the documentation
    vocabulary and none of the incident vocabulary, the deterministic plan
    is a [search_docs] step, then a [query_incidents] step, then the
    synthesis step, and both tool steps carry the condensed query: the first
    five extracted keywords joined by spaces, or the first 50 characters of
    the text when no keyword was extracted. *)
Theorem deterministic_plan_fail_open (text : string) :
  Forall (fun kw => Str.contains (Str.lower text) kw = false)
    Planner.DOC_KEYWORDS ->
  Forall (fun kw => Str.contains (Str.lower text) kw = false)
    Planner.INCIDENT_KEYWORDS ->
  let query :=
    match Planner._extract_keywords text with
    | [] => Str.take 50 text
    | kw :: kws => Str.join " " (take 5 (kw :: kws))
    end in
  exists docs incidents synthesis,
    steps (Planner._create_deterministic_plan text) =
      [docs; incidents; synthesis] /\
    tool docs = Some search_docs_tool /\ tool_input docs = Some query /\
    tool incidents = Some query_incidents_tool /\
    tool_input incidents = Some query /\
    tool synthesis = None.
Proof.
  intros Hdocs Hincidents query.
  unfold Planner._create_deterministic_plan.
  assert (Hd : Planner._needs_docs text = false)
    by (apply existsb_false_Forall; exact Hdocs).
  assert (Hi : Planner._needs_incidents text = false)
    by (apply existsb_false_Forall; exact Hincidents).
  rewrite Hd, Hi. simpl.
  do 3 eexists. split; [reflexivity |]. simpl.
  subst query. destruct (Planner._extract_keywords text); simpl; auto.
Qed.

Lemma create_plan_deterministic_shape_witness :
  let env := Planner.mkEnviron None None None in
  let text := "How do I fix a database issue?" in
  Planner.use_llm env = false /\
  exists plan,
    Planner.create_plan "You are a planner. " " Respond with JSON."
      offline no_json no_plan env text = Ok plan /\
    plan = Planner._create_deterministic_plan text /\
    steps plan <> [] /\
    (exists init final,
        steps plan = init ++ [final] /\
        tool final = None /\
        Forall (fun s => tool s = Some search_docs_tool \/
                         tool s = Some query_incidents_tool) init) /\
    step_number <$> steps plan = Z.of_nat <$> seq 1 (length (steps plan)).
Proof.
  split; [reflexivity |].
  apply (create_plan_deterministic_shape "You are a planner. "
           " Respond with JSON." offline no_json no_plan
           (Planner.mkEnviron None None None)
           "How do I fix a database issue?").
  reflexivity.
Defined.

Lemma deterministic_plan_fail_open_witness :
  exists docs incidents synthesis,
    steps (Planner._create_deterministic_plan "xyz abc 123") =
      [docs; incidents; synthesis] /\
    tool docs = Some search_docs_tool /\ tool_input docs = Some "xyz abc" /\
    tool incidents = Some query_incidents_tool /\
    tool_input incidents = Some "xyz abc" /\
    tool synthesis = None.
Proof.
  apply (deterministic_plan_fail_open "xyz abc 123");
    repeat constructor.
Defined.

Lemma create_plan_llm_failure_falls_back_witness :
  let env := Planner.mkEnviron (Some "TRUE") (Some "sk-test") None in
  let text := "Past outages" in
  Planner.use_llm env = true /\
  Planner.create_plan "You are a planner. " " Respond with JSON."
    offline no_json no_plan env text =
  Ok (Planner._create_deterministic_plan text).
Proof.
  split; [reflexivity |].
  apply (create_plan_llm_failure_falls_back "You are a planner. "
           " Respond with JSON." offline no_json no_plan
           (Planner.mkEnviron (Some "TRUE") (Some "sk-test") None)
           "Past outages").
  - reflexivity.
  - apply Planner.network_error with (e := Exception "ConnectError").
    reflexivity.
Defined.

(** ** The stable descending sort *)

Section SortReverseFacts.

Context {A K : Type} (key : A -> K) (ltb : K -> K -> bool).

Hypothesis ltb_asym : forall a b, ltb a b = true -> ltb b a = false.
Hypothesis not_ltb_trans :
  forall a b c, ltb a b = false -> ltb b c = false -> ltb a c = false.

Lemma insert_desc_perm x l : insert_desc key ltb x l ≡ₚ x :: l.
Proof.
  induction l as [| y l IH]; simpl; [reflexivity |].
  destruct (ltb (key x) (key y)); [| reflexivity].
  rewrite IH. apply Permutation_swap.
Qed.

Lemma sort_reverse_perm l : sort_reverse key ltb l ≡ₚ l.
Proof.
  induction l as [| x l IH]; simpl; [reflexivity |].
  rewrite insert_desc_perm, IH. reflexivity.
Qed.

Lemma insert_desc_sorted x l :
  StronglySorted (not_below key ltb) l ->
  StronglySorted (not_below key ltb) (insert_desc key ltb x l).
Proof.
  induction 1 as [| y l Hs IH Hy]; simpl.
  - repeat constructor.
  - destruct (ltb (key x) (key y)) eqn:E.
    + constructor; [exact IH |].
      rewrite insert_desc_perm. constructor; [| exact Hy].
      apply ltb_asym, E.
    + constructor; [constructor; assumption |].
      constructor; [exact E |].
      eapply Forall_impl; [exact Hy |].
      intros z Hz. eapply not_ltb_trans; [exact E | exact Hz].
Qed.

Lemma sort_reverse_sorted l :
  StronglySorted (not_below key ltb) (sort_reverse key ltb l).
Proof.
  induction l as [| x l IH]; simpl; [constructor |].
  apply insert_desc_sorted, IH.
Qed.

(** Stability: elements that are never strictly below one another keep
    their order. *)
Section Stable.

Context (P : A -> Prop) `{!forall x, Decision (P x)}.
Hypothesis P_ties : forall x y, P x -> P y -> ltb (key x) (key y) = false.

Lemma insert_desc_filter x l :
  filter P (insert_desc key ltb x l) = filter P (x :: l).
Proof.
  induction l as [| y l IH]; simpl; [reflexivity |].
  destruct (ltb (key x) (key y)) eqn:E; [| reflexivity].
  rewrite !filter_cons, IH, filter_cons.
  destruct (decide (P y)) as [Hy |], (decide (P x)) as [Hx |];
    try reflexivity.
  rewrite (P_ties x y Hx Hy) in E. discriminate.
Qed.

Lemma sort_reverse_filter l :
  filter P (sort_reverse key ltb l) = filter P l.
Proof.
  induction l as [| x l IH]; simpl; [reflexivity |].
  rewrite insert_desc_filter, !filter_cons, IH. reflexivity.
Qed.

End Stable.

End SortReverseFacts.

(** ** The order on strings and on sort keys *)





Lemma Z_ltb_asym (a b : Z) : (a <? b) = true -> (b <? a) = false.
Proof. lia. Qed.

Lemma Z_not_ltb_trans (a b c : Z) :
  (a <? b) = false -> (b <? c) = false -> (a <? c) = false.
Proof. lia. Qed.




Lemma StronglySorted_weaken {A} (R Q : A -> A -> Prop) (l : list A) :
  (forall a b, R a b -> Q a b) -> StronglySorted R l -> StronglySorted Q l.
Proof.
  intros HRQ. induction 1 as [| x l _ IH Hx]; constructor; [exact IH |].
  eapply Forall_impl; [exact Hx | auto].
Qed.

(** ** Document search *)

Section SearchDocsProperties.

Variable first_heading : string -> option string.
Variable stem : string -> string.
Variable _extract_snippet : string -> gset string -> string.
Variable _extract_key_points : string -> list string.

Local Abbreviation search_docs :=
  (Tools.search_docs first_heading stem _extract_snippet
     _extract_key_points).
Local Abbreviation scan_file :=
  (Tools.scan_file first_heading stem _extract_snippet _extract_key_points).
Local Abbreviation doc_hit :=
  (Spec.doc_hit first_heading stem _extract_snippet _extract_key_points).
Local Abbreviation candidates :=
  (Spec.candidates first_heading stem _extract_snippet _extract_key_points).

Lemma scan_file_doc_hit keywords results md_file :
  scan_file keywords results md_file =
  results ++ option_list (doc_hit keywords md_file).
Proof.
  unfold Tools.scan_file, Spec.doc_hit.
  destruct (Tools.read_text md_file) as [content | e]; simpl.
  - destruct (0 <? _); simpl; [reflexivity | by rewrite app_nil_r].
  - by rewrite app_nil_r.
Qed.

Lemma foldl_scan_file keywords files : forall results,
  foldl (scan_file keywords) results files =
  results ++ omap (doc_hit keywords) files.
Proof.
  induction files as [| f files IH]; intros results; simpl.
  - by rewrite app_nil_r.
  - rewrite IH, scan_file_doc_hit, <- app_assoc. f_equal.
    destruct (doc_hit keywords f); reflexivity.
Qed.

Lemma search_docs_ranked_candidates corpus query :
  search_docs corpus query =
  take 5 (sort_reverse Tools.relevance_score Z.ltb (candidates corpus query)).
Proof.
  unfold Tools.search_docs, Spec.candidates.
  destruct corpus as [entries |]; [| reflexivity].
  rewrite foldl_scan_file. reflexivity.
Qed.

Lemma doc_hit_positive keywords md_file hit :
  doc_hit keywords md_file = Some hit -> 1 <= Tools.relevance_score hit.
Proof.
  unfold Spec.doc_hit. destruct (Tools.read_text md_file); [| discriminate].
  destruct (Z.ltb_spec 0 (Tools.count_matches keywords (Str.lower a)));
    [| discriminate].
  intros [= <-]. simpl. lia.
Qed.

Lemma doc_hit_source keywords md_file hit :
  doc_hit keywords md_file = Some hit ->
  Tools.filename hit = Tools.name md_file /\
  exists content,
    Tools.read_text md_file = Ok content /\
    Tools.relevance_score hit =
      Tools.count_matches keywords (Str.lower content).
Proof.
  unfold Spec.doc_hit.
  destruct (Tools.read_text md_file) as [content |]; [| discriminate].
  destruct (0 <? _); [| discriminate].
  intros [= <-]. simpl. eauto.
Qed.

Lemma elem_of_candidates corpus query hit :
  hit ∈ candidates corpus query ->
  exists entries md_file,
    corpus = Some entries /\ md_file ∈ entries /\
    Str.endswith (Tools.name md_file) ".md" = true /\
    doc_hit (Tools.keyword_set query) md_file = Some hit.
Proof.
  unfold Spec.candidates. destruct corpus as [entries |].
  - rewrite list_elem_of_omap. intros (f & Hf & Hhit).
    unfold Tools.glob_md in Hf. apply list_elem_of_filter in Hf as [Hmd Hf].
    eauto 6.
  - intros H. inversion H.
Qed.

Lemma elem_of_search_docs corpus query hit :
  hit ∈ search_docs corpus query -> hit ∈ candidates corpus query.
Proof.
  rewrite search_docs_ranked_candidates. intros H.
  apply elem_of_take in H as (i & H & _).
  apply list_elem_of_lookup_2 in H.
  by rewrite sort_reverse_perm in H.
Qed.

(** C3.  For every query and corpus, [search_docs] returns at most five
    hits, each with a relevance score of at least 1, in descending order
    of score; they are the first five of the matching documents sorted by
    score, where documents of equal score stay in the order in which the
    directory enumerates them. *)
Theorem search_docs_top_five_ranked (corpus : Tools.Corpus) (query : string) :
  let hits := search_docs corpus query in
  (length hits <= 5)%nat /\
  Forall (fun h => 1 <= Tools.relevance_score h) hits /\
  StronglySorted
    (fun a b => Tools.relevance_score b <= Tools.relevance_score a) hits /\
  exists ranked,
    hits = take 5 ranked /\
    ranked ≡ₚ candidates corpus query /\
    StronglySorted
      (fun a b => Tools.relevance_score b <= Tools.relevance_score a)
      ranked /\
    forall k,
      filter (fun h => Tools.relevance_score h = k) ranked =
      filter (fun h => Tools.relevance_score h = k) (candidates corpus query).
Proof.
  intros hits.
  assert (Hsorted : StronglySorted
            (fun a b => Tools.relevance_score b <= Tools.relevance_score a)
            (sort_reverse Tools.relevance_score Z.ltb (candidates corpus query))).
  { eapply StronglySorted_weaken;
      [| apply (sort_reverse_sorted Tools.relevance_score Z.ltb
                  Z_ltb_asym Z_not_ltb_trans)].
    unfold not_below. intros a b H. lia. }
  subst hits. rewrite search_docs_ranked_candidates.
  split; [rewrite length_take; lia |].
  split.
  { apply Forall_take. rewrite sort_reverse_perm.
    apply Forall_forall. intros hit Hhit.
    apply elem_of_candidates in Hhit as (? & f & _ & _ & _ & Hhit).
    eapply doc_hit_positive, Hhit. }
  split.
  { rewrite <- (take_drop 5) in Hsorted.
    apply StronglySorted_app_1_l in Hsorted. exact Hsorted. }
  eexists. split; [reflexivity |].
  split; [apply sort_reverse_perm |].
  split; [exact Hsorted |].
  intros k. apply sort_reverse_filter.
  intros x y Hx Hy. lia.
Qed.

(** C10.  [search_docs] looks only at the directory entries whose names
    end in [.md]: every hit it returns is named after such an entry, and
    entries with other names have no effect on what it returns. *)
Theorem search_docs_only_md (query : string) :
  (forall corpus,
      Forall (fun h => Str.endswith (Tools.filename h) ".md" = true)
        (search_docs corpus query)) /\
  (forall entries entries',
      Tools.glob_md entries = Tools.glob_md entries' ->
      search_docs (Some entries) query = search_docs (Some entries') query) /\
  (forall entries,
      search_docs (Some entries) query =
      search_docs (Some (Tools.glob_md entries)) query).
Proof.
  split; [| split].
  - intros corpus. apply Forall_forall. intros hit Hhit.
    apply elem_of_search_docs, elem_of_candidates in Hhit
      as (? & f & _ & _ & Hmd & Hhit).
    apply doc_hit_source in Hhit as [-> _]. exact Hmd.
  - intros entries entries' H.
    unfold Tools.search_docs. rewrite H. reflexivity.
  - intros entries. unfold Tools.search_docs, Tools.glob_md.
    rewrite list_filter_filter_l by auto. reflexivity.
Qed.

End SearchDocsProperties.

(** ** The tokens of a query *)

Lemma lower_char_not_upper c : Str.is_upper (Str.lower_char c) = false.
Proof. destruct c as [[] [] [] [] [] [] [] []]; reflexivity. Qed.

Lemma lower_not_upper s :
  string_forallb (fun c => negb (Str.is_upper c)) (Str.lower s) = true.
Proof.
  induction s as [| c s IH]; simpl; [reflexivity |].
  rewrite lower_char_not_upper, IH. reflexivity.
Qed.

Lemma span_alpha_run (q : ascii -> bool) s run rest :
  Str.span_alpha s = (run, rest) ->
  string_forallb Str.is_alpha run = true /\
  (string_forallb q s = true -> string_forallb q run = true).
Proof.
  revert run rest. induction s as [| c s IH]; simpl; intros run rest H.
  - injection H as <- <-. auto.
  - destruct (Str.is_alpha c) eqn:Ec.
    + destruct (Str.span_alpha s) as [run' rest'].
      injection H as <- <-. destruct (IH _ _ eq_refl) as [H1 H2].
      simpl. rewrite Ec, H1. split; [reflexivity |].
      intros [Hc Hs]%andb_prop. rewrite Hc, (H2 Hs). reflexivity.
    + injection H as <- <-. auto.
Qed.

Lemma match_here_word (q : ascii -> bool) prev s w :
  Str.match_here prev s = Some w ->
  (3 <= String.length w)%nat /\
  string_forallb Str.is_alpha w = true /\
  (string_forallb q s = true -> string_forallb q w = true).
Proof.
  unfold Str.match_here. destruct (Str.boundary prev (Str.head s)); [| discriminate].
  destruct (Str.span_alpha s) as [run rest] eqn:E.
  destruct (Nat.leb_spec 3 (String.length run)); simpl; [| discriminate].
  destruct (Str.boundary _ _); [| discriminate].
  intros [= <-]. destruct (span_alpha_run q _ _ _ E). auto.
Qed.

Lemma findall_from_word (q : ascii -> bool) s : forall prev skip w,
  w ∈ Str.findall_from prev skip s ->
  (3 <= String.length w)%nat /\
  string_forallb Str.is_alpha w = true /\
  (string_forallb q s = true -> string_forallb q w = true).
Proof.
  induction s as [| c s IH]; intros prev skip w Hw; simpl in Hw.
  - inversion Hw.
  - assert (Htail : string_forallb q (String c s) = true ->
                    string_forallb q s = true)
      by (simpl; intros [_ H]%andb_prop; exact H).
    destruct skip as [| k].
    + destruct (Str.match_here prev (String c s)) as [w' |] eqn:E.
      * apply elem_of_cons in Hw as [-> | Hw].
        -- exact (match_here_word q _ _ _ E).
        -- destruct (IH _ _ _ Hw) as (? & ? & ?). auto.
      * destruct (IH _ _ _ Hw) as (? & ? & ?). auto.
    + destruct (IH _ _ _ Hw) as (? & ? & ?). auto.
Qed.

Lemma alpha_not_upper_lower w :
  string_forallb Str.is_alpha w = true ->
  string_forallb (fun c => negb (Str.is_upper c)) w = true ->
  string_forallb Str.is_lower w = true.
Proof.
  induction w as [| c w IH]; simpl; [reflexivity |].
  intros [Ha Hw]%andb_prop [Hu Hw']%andb_prop.
  rewrite (IH Hw Hw'), andb_true_r.
  unfold Str.is_alpha in Ha. destruct (Str.is_upper c); [discriminate | exact Ha].
Qed.

(** Every token of a lower-cased text is a run of three or more lower-case
    letters. *)
Lemma findall_words_lower text w :
  w ∈ Str.findall_words (Str.lower text) ->
  (3 <= String.length w)%nat /\ string_forallb Str.is_lower w = true.
Proof.
  intros Hw.
  destruct (findall_from_word (fun c => negb (Str.is_upper c)) _ _ _ _ Hw)
    as (Hlen & Halpha & Hq).
  split; [exact Hlen |].
  apply alpha_not_upper_lower; [exact Halpha | apply Hq, lower_not_upper].
Qed.

Section SearchDocsKeywords.

Variable first_heading : string -> option string.
Variable stem : string -> string.
Variable _extract_snippet : string -> gset string -> string.
Variable _extract_key_points : string -> list string.

Local Abbreviation search_docs :=
  (Tools.search_docs first_heading stem _extract_snippet
     _extract_key_points).


End SearchDocsKeywords.


(** ** Incident search *)

Lemma lower_app s t : Str.lower (s +:+ t) = Str.lower s +:+ Str.lower t.
Proof. induction s as [| c s IH]; simpl; [reflexivity | by rewrite IH]. Qed.

(** Lower-casing the fields one by one and joining them with spaces gives
    the lower-cased space-separated concatenation. *)
Lemma lower_join l :
  Str.join " " (Str.lower <$> l) = Str.lower (Str.join " " l).
Proof.
  induction l as [| x [| y l] IH]; simpl in *; [reflexivity .. |].
  rewrite IH, !lower_app. reflexivity.
Qed.




Section QueryIncidentsProperties.

Variable isoformat : Tools.datetime -> string.

Local Abbreviation query_incidents := (Tools.query_incidents isoformat).
Local Abbreviation to_dict := (Tools.to_dict isoformat).
Local Abbreviation hit_of := (Spec.hit_of isoformat).
Local Abbreviation select_for := Spec.select_for.

Lemma query_incidents_unfold query db :
  query_incidents query db =
  (take 5 (sort_reverse Tools.sort_key pair_ltb
             (hit_of (Tools.keyword_set query) <$>
                Tools.run_select (select_for (Tools.keyword_set query)) db)),
   db).
Proof.
  unfold Tools.query_incidents, Spec.select_for, Spec.hit_of.
  destruct (bool_decide (Tools.keyword_set query = ∅)); simpl;
    rewrite <- list_fmap_compose; reflexivity.
Qed.





(** C9.  [query_incidents] leaves the incident storage as it found it. *)
Theorem query_incidents_read_only (query : string) (db : Tools.Storage) :
  (query_incidents query db).2 = db.
Proof. rewrite query_incidents_unfold. reflexivity. Qed.

End QueryIncidentsProperties.

Lemma count_matches_empty text : Tools.count_matches ∅ text = 0.
Proof. unfold Tools.count_matches. rewrite elements_empty. reflexivity. Qed.

Section RecentIncidents.

Variable isoformat : Tools.datetime -> string.

Local Abbreviation query_incidents := (Tools.query_incidents isoformat).
Local Abbreviation to_dict := (Tools.to_dict isoformat).
Local Abbreviation hit_of := (Spec.hit_of isoformat).
Local Abbreviation select_for := Spec.select_for.


End RecentIncidents.

(** ** The job lifecycle *)

Section ProcessRequestProperties.

Variables AgentResult ToolCall : Type.
Variable create_plan : string -> result AgentPlan.
Variable execute_plan :
  string -> AgentPlan -> result (AgentResult * list ToolCall).
Variables t_start t_end : Tools.datetime.

Local Abbreviation process_request :=
  (Tasks.process_request AgentResult ToolCall create_plan execute_plan
     t_start t_end).


End ProcessRequestProperties.





Example query_incidents_database_ex :
  (fun h => (Tools.d_id (Tools.fields h), Tools.score h)) <$>
    (Tools.query_incidents sample_isoformat "Database timeout?"
       sample_incidents).1 =
  [("INC-001", 2)].
Proof. vm_compute. reflexivity. Qed.

Example query_incidents_recent_ex :
  (fun h => (Tools.d_id (Tools.fields h), Tools.score h)) <$>
    (Tools.query_incidents sample_isoformat EmptyString sample_incidents).1 =
  [("INC-002", 0); ("INC-001", 0)].
Proof. vm_compute. reflexivity. Qed.

Example search_docs_ex :
  (fun h => (Tools.filename h, Tools.relevance_score h)) <$>
    Tools.search_docs no_heading whole_name no_snippet no_key_points
      sample_corpus "Database timeout" =
  [("database.md", 2); ("cache.md", 1); ("queue.md", 1)].
Proof. vm_compute. reflexivity. Qed.

Example endswith_ex :
  Str.endswith "a.md" ".md" = true /\ Str.endswith "md" ".md" = false /\
  Str.endswith "a.md.bak" ".md" = false.
Proof. repeat split; reflexivity. Qed.

(** * Further properties of the planner *)

Lemma lower_char_idem c : Str.lower_char (Str.lower_char c) = Str.lower_char c.
Proof. destruct c as [[] [] [] [] [] [] [] []]; reflexivity. Qed.

Lemma lower_idem s : Str.lower (Str.lower s) = Str.lower s.
Proof.
  induction s as [| c s IH]; simpl; [reflexivity |].
  by rewrite lower_char_idem, IH.
Qed.

Lemma is_lower_facts c :
  Str.is_lower c = true ->
  Str.is_alpha c = true /\ Str.is_word c = true /\ Str.lower_char c = c.
Proof. destruct c as [[] [] [] [] [] [] [] []]; simpl; intros H; try discriminate; auto. Qed.

Lemma lower_of_lower_letters s :
  string_forallb Str.is_lower s = true -> Str.lower s = s.
Proof.
  induction s as [| c s IH]; simpl; [reflexivity |].
  intros [Hc Hs]%andb_prop.
  destruct (is_lower_facts c Hc) as (_ & _ & ->). by rewrite IH.
Qed.

Lemma lower_join_words ws :
  Forall lower_word ws -> Str.lower (Str.join " " ws) = Str.join " " ws.
Proof.
  intros Hws. rewrite <- lower_join. f_equal.
  induction Hws as [| w ws [_ Hw] _ IH]; [reflexivity |].
  by rewrite fmap_cons, lower_of_lower_letters, IH.
Qed.

Lemma span_alpha_word w rest :
  string_forallb Str.is_lower w = true -> space_led rest ->
  Str.span_alpha (w +:+ rest) = (w, rest).
Proof.
  intros Hw Hrest. induction w as [| c w IH]; simpl in *.
  - destruct Hrest as [-> | [r ->]]; reflexivity.
  - apply andb_prop in Hw as [Hc Hw].
    destruct (is_lower_facts c Hc) as (-> & _ & _).
    by rewrite (IH Hw).
Qed.

Lemma last_char_word w :
  string_forallb Str.is_lower w = true -> w <> EmptyString ->
  Str.word_opt (Str.last_char w) = true.
Proof.
  induction w as [| c w IH]; [done |]. simpl.
  intros [Hc Hw]%andb_prop _.
  destruct w as [| d w]; [apply is_lower_facts, Hc |].
  apply IH; [exact Hw | done].
Qed.

Lemma match_here_lower_word prev w rest :
  Str.word_opt prev = false -> lower_word w -> space_led rest ->
  Str.match_here prev (w +:+ rest) = Some w.
Proof.
  intros Hprev [Hlen Hw] Hrest. unfold Str.match_here.
  rewrite (span_alpha_word w rest Hw Hrest).
  assert (Hne : w <> EmptyString) by (intros ->; simpl in Hlen; lia).
  assert (Hhead : Str.word_opt (Str.head (w +:+ rest)) = true).
  { destruct w as [| c w]; [done |]. simpl in *.
    apply andb_prop in Hw as [Hc _]. apply is_lower_facts, Hc. }
  cbv beta iota. unfold Str.boundary.
  rewrite Hprev, Hhead, (last_char_word w Hw Hne).
  assert (Nat.leb 3 (String.length w) = true) as ->
    by (apply Nat.leb_le; exact Hlen).
  destruct Hrest as [-> | [r ->]]; reflexivity.
Qed.

Lemma last_char_cons a u : exists d, Str.last_char (String a u) = Some d.
Proof.
  revert a. induction u as [| b u IH]; intros a; simpl; [eauto |].
  apply (IH b).
Qed.

(** Passing over the rest of a match: the scan resumes behind it. *)
Lemma findall_from_skip u : forall prev rest,
  Str.findall_from prev (String.length u) (u +:+ rest) =
  Str.findall_from
    (match Str.last_char u with Some c => Some c | None => prev end) 0 rest.
Proof.
  induction u as [| c u IH]; intros prev rest; simpl.
  - reflexivity.
  - rewrite IH. destruct u as [| a u]; [reflexivity |].
    destruct (last_char_cons a u) as [d ->]. reflexivity.
Qed.

Lemma findall_from_lower_word prev w rest :
  Str.word_opt prev = false -> lower_word w -> space_led rest ->
  Str.findall_from prev 0 (w +:+ rest) =
  w :: Str.findall_from (Str.last_char w) 0 rest.
Proof.
  intros Hprev Hw Hrest.
  pose proof (match_here_lower_word prev w rest Hprev Hw Hrest) as Hm.
  destruct w as [| c w]; [destruct Hw as [Hlen _]; simpl in Hlen; lia |].
  change (String c w +:+ rest) with (String c (w +:+ rest)) in *.
  cbn [Str.findall_from]. rewrite Hm. f_equal.
  cbn [String.length]. rewrite Nat.sub_1_r. simpl Nat.pred.
  rewrite findall_from_skip. destruct w as [| a w]; [reflexivity |].
  change (Str.last_char (String c (String a w)))
    with (Str.last_char (String a w)).
  destruct (last_char_cons a w) as [d ->]. reflexivity.
Qed.

Lemma append_empty_r s : s +:+ EmptyString = s.
Proof.
  induction s as [| c s IH]; [reflexivity |].
  change (String c (s +:+ EmptyString) = String c s). by rewrite IH.
Qed.

Lemma match_here_space prev r : Str.match_here prev (String " " r) = None.
Proof.
  unfold Str.match_here. destruct (Str.boundary prev _); reflexivity.
Qed.

(** Tokenizing words joined by spaces gives the words back. *)
Lemma findall_from_join ws : forall prev,
  Str.word_opt prev = false -> Forall lower_word ws ->
  Str.findall_from prev 0 (Str.join " " ws) = ws.
Proof.
  induction ws as [| w ws IH]; intros prev Hprev Hws; [reflexivity |].
  apply Forall_cons in Hws as [Hw Hws].
  destruct ws as [| w' ws].
  - change (Str.join " " [w]) with w.
    rewrite <- (append_empty_r w) at 1.
    rewrite findall_from_lower_word by (auto; by left). reflexivity.
  - change (Str.join " " (w :: w' :: ws))
      with (w +:+ String " " (Str.join " " (w' :: ws))).
    rewrite findall_from_lower_word by (auto; right; eauto).
    f_equal. cbn [Str.findall_from]. rewrite match_here_space.
    apply IH; [reflexivity | exact Hws].
Qed.

Lemma findall_words_join ws :
  Forall lower_word ws ->
  Str.findall_words (Str.lower (Str.join " " ws)) = ws.
Proof.
  intros Hws. rewrite lower_join_words by exact Hws.
  by apply findall_from_join.
Qed.

Lemma extract_keywords_lower_words text :
  Forall (fun w => lower_word w /\ w ∉ Planner.stop_words)
    (Planner._extract_keywords text).
Proof.
  apply Forall_forall. intros w Hw. unfold Planner._extract_keywords in Hw.
  apply list_elem_of_filter in Hw as [Hstop Hw].
  split; [by apply (findall_words_lower text) | exact Hstop].
Qed.

Lemma filter_all {A} (P : A -> Prop) `{!forall x, Decision (P x)} (l : list A) :
  Forall P l -> filter P l = l.
Proof.
  induction 1 as [| x l Hx _ IH]; [reflexivity |].
  rewrite filter_cons, decide_True by exact Hx. by rewrite IH.
Qed.

(** X1.  Every keyword the extractor returns is a run of three or more
    lower-case letters and is not a stop word. *)
Theorem extract_keywords_sound (text w : string) :
  w ∈ Planner._extract_keywords text ->
  (3 <= String.length w)%nat /\
  string_forallb Str.is_lower w = true /\
  w ∉ Planner.stop_words.
Proof.
  intros Hw.
  pose proof (extract_keywords_lower_words text) as H.
  rewrite Forall_forall in H. destruct (H w Hw) as [[? ?] ?]. auto.
Qed.

Lemma extract_keywords_sound_witness :
  "database" ∈
    Planner._extract_keywords "How do I handle database connection timeout?" /\
  (3 <= String.length "database")%nat /\
  string_forallb Str.is_lower "database" = true /\
  "database" ∉ Planner.stop_words.
Proof.
  assert (H : "database" ∈
    Planner._extract_keywords "How do I handle database connection timeout?")
    by (vm_compute; repeat constructor).
  split; [exact H |].
  exact (extract_keywords_sound _ _ H).
Defined.

(** X2.  Feeding the condensed query of a request with keywords back to the
    tokenizers gives the first five keywords again: the keyword extractor
    returns them in order, and the keyword set the tools build from it is
    exactly their set. *)
Theorem condensed_query_round_trip (text : string) :
  Planner._extract_keywords text <> [] ->
  Forall (fun s =>
            forall q, tool_input s = Some q ->
              q = Str.join " " (take 5 (Planner._extract_keywords text)) /\
              Planner._extract_keywords q =
                take 5 (Planner._extract_keywords text) /\
              Tools.keyword_set q =
                list_to_set (take 5 (Planner._extract_keywords text)))
    (steps (Planner._create_deterministic_plan text)).
Proof.
  intros Hne.
  pose proof (extract_keywords_lower_words text) as Hall.
  set (kws := Planner._extract_keywords text) in *.
  assert (Htake : Forall (fun w => lower_word w /\ w ∉ Planner.stop_words)
                    (take 5 kws)) by (by apply Forall_take).
  assert (Hwords : Forall lower_word (take 5 kws))
    by (eapply Forall_impl; [exact Htake | intros w [Hw _]; exact Hw]).
  assert (Hq : forall q, q = Str.join " " (take 5 kws) ->
             Planner._extract_keywords q = take 5 kws /\
             Tools.keyword_set q = list_to_set (take 5 kws)).
  { intros q ->. unfold Planner._extract_keywords at 1, Tools.keyword_set.
    rewrite findall_words_join by exact Hwords.
    split; [| reflexivity].
    apply filter_all. eapply Forall_impl; [exact Htake |].
    intros w [_ Hw]. exact Hw. }
  unfold Planner._create_deterministic_plan. fold kws.
  destruct kws as [| kw kws']; [done |].
  cbn [Planner.nonempty].
  destruct (negb (Planner._needs_docs text) &&
            negb (Planner._needs_incidents text))%bool;
    [| destruct (Planner._needs_docs text), (Planner._needs_incidents text)];
    cbn [steps Planner.plan_steps app];
    repeat (apply Forall_cons; split;
            [intros q [= <-] || intros q [=]; auto |]);
    constructor.
Qed.

Lemma condensed_query_round_trip_witness :
  let text := "How do I handle database connection timeout?" in
  Planner._extract_keywords text <> [] /\
  Forall (fun s =>
            forall q, tool_input s = Some q ->
              q = Str.join " " (take 5 (Planner._extract_keywords text)) /\
              Planner._extract_keywords q =
                take 5 (Planner._extract_keywords text) /\
              Tools.keyword_set q =
                list_to_set (take 5 (Planner._extract_keywords text)))
    (steps (Planner._create_deterministic_plan text)).
Proof.
  assert (H : Planner._extract_keywords
                "How do I handle database connection timeout?" <> [])
    by (vm_compute; discriminate).
  split; [exact H |].
  exact (condensed_query_round_trip _ H).
Defined.

(** X3.  The deterministic plan is decided by the two intent flags alone: a
    [search_docs] step is present exactly when the text shows documentation
    intent or shows no incident intent, a [query_incidents] step exactly
    when it shows incident intent or no documentation intent, in that
    order, followed by the synthesis step.  So a plan has two or three
    steps, and every tool step carries the same input while the synthesis
    step carries none. *)
Theorem deterministic_plan_tools (text : string) :
  let plan := Planner._create_deterministic_plan text in
  tool <$> steps plan =
    (if (Planner._needs_docs text || negb (Planner._needs_incidents text))%bool
     then [Some search_docs_tool] else []) ++
    (if (Planner._needs_incidents text || negb (Planner._needs_docs text))%bool
     then [Some query_incidents_tool] else []) ++
    [None] /\
  (2 <= length (steps plan) <= 3)%nat /\
  exists query,
    Forall (fun s =>
              tool_input s =
                match tool s with Some _ => Some query | None => None end)
      (steps plan).
Proof.
  unfold Planner._create_deterministic_plan.
  destruct (Planner._needs_docs text), (Planner._needs_incidents text);
    cbn -[Str.join Str.take Planner._extract_keywords];
    (split; [reflexivity |]); (split; [lia |]);
    eexists; repeat (constructor; [reflexivity |]); constructor.
Qed.

(** X4.  For a text with at least one keyword the deterministic plan does
    not depend on the letter case of the text. *)
Theorem deterministic_plan_case_insensitive (text : string) :
  Planner._extract_keywords text <> [] ->
  Planner._create_deterministic_plan (Str.lower text) =
  Planner._create_deterministic_plan text.
Proof.
  intros Hne. unfold Planner._create_deterministic_plan.
  assert (Hk : Planner._extract_keywords (Str.lower text) =
               Planner._extract_keywords text)
    by (unfold Planner._extract_keywords; by rewrite lower_idem).
  assert (Hd : Planner._needs_docs (Str.lower text) = Planner._needs_docs text)
    by (unfold Planner._needs_docs; by rewrite lower_idem).
  assert (Hi : Planner._needs_incidents (Str.lower text) =
               Planner._needs_incidents text)
    by (unfold Planner._needs_incidents; by rewrite lower_idem).
  rewrite Hk, Hd, Hi.
  destruct (Planner._extract_keywords text); [done | reflexivity].
Qed.

Lemma deterministic_plan_case_insensitive_witness :
  Planner._extract_keywords "Past OUTAGES" <> [] /\
  Planner._create_deterministic_plan (Str.lower "Past OUTAGES") =
  Planner._create_deterministic_plan "Past OUTAGES".
Proof.
  assert (H : Planner._extract_keywords "Past OUTAGES" <> [])
    by (vm_compute; discriminate).
  split; [exact H |].
  exact (deterministic_plan_case_insensitive _ H).
Defined.

Section LLMPlanProperties.

Variables prompt_head prompt_tail : string.
Variable httpx_post : Planner.ChatRequest -> result Planner.Response.
Variable json_loads : string -> result Planner.JSON.
Variable AgentPlan_validate : Planner.JSON -> result AgentPlan.

Local Abbreviation create_plan :=
  (Planner.create_plan prompt_head prompt_tail httpx_post json_loads
     AgentPlan_validate).
Local Abbreviation llm_call :=
  (Planner.llm_call prompt_head prompt_tail httpx_post json_loads
     AgentPlan_validate).
Local Abbreviation message_content := (Planner.message_content).

(** What a successful call went through. *)
Lemma llm_call_ok api_key model text plan :
  llm_call api_key model text = Ok plan ->
  exists r data content plan_data,
    httpx_post
      (Planner.chat_request prompt_head prompt_tail api_key model text) = Ok r /\
    200 <= Planner.status_code r < 300 /\
    json_loads (Planner.body r) = Ok data /\
    message_content data = Ok (Planner.JString content) /\
    json_loads content = Ok plan_data /\
    AgentPlan_validate plan_data = Ok plan.
Proof.
  unfold Planner.llm_call. intros H.
  destruct (httpx_post _) as [r |]; [| discriminate]. simpl in H.
  unfold Planner.raise_for_status in H.
  destruct (Z.leb_spec 200 (Planner.status_code r));
    destruct (Z.ltb_spec (Planner.status_code r) 300);
    simpl in H; try discriminate.
  destruct (json_loads (Planner.body r)) as [data |] eqn:Hd;
    [| discriminate]. simpl in H.
  destruct (Planner.message_content data) as [content |] eqn:Hc;
    [| discriminate]. simpl in H.
  destruct content as [| | | c | |]; simpl in H; try discriminate.
  destruct (json_loads c) as [pd |] eqn:Hp; [| discriminate]. simpl in H.
  exists r, data, c, pd. repeat split; auto.
Qed.

(** X5.  [create_plan] returns a plan other than the deterministic one only
    when LLM planning is selected, a credential is set, the response has a
    2xx status, its body and the message content decode, and the decoded
    plan validates; the plan returned is then the validated one, as it
    is. *)
Theorem create_plan_llm_plan_validated
    (env : Planner.Environ) (text : string) (plan : AgentPlan) :
  create_plan env text = Ok plan ->
  plan <> Planner._create_deterministic_plan text ->
  Planner.use_llm env = true /\
  Planner.api_key_of env <> EmptyString /\
  exists r data content plan_data,
    httpx_post
      (Planner.chat_request prompt_head prompt_tail (Planner.api_key_of env)
         (Planner.model_of env) text) = Ok r /\
    200 <= Planner.status_code r < 300 /\
    json_loads (Planner.body r) = Ok data /\
    message_content data = Ok (Planner.JString content) /\
    json_loads content = Ok plan_data /\
    AgentPlan_validate plan_data = Ok plan.
Proof.
  unfold Planner.create_plan, Planner._create_llm_plan. intros H Hne.
  destruct (Planner.use_llm env); [| by injection H as <-].
  split; [reflexivity |].
  destruct (Planner.api_key_of env) as [| c k] eqn:Hk;
    [by injection H as <- |].
  split; [discriminate |]. simpl in H.
  destruct (Planner.llm_call _ _ _ _ _ _ _ _) as [p |] eqn:Hcall;
    simpl in H; [| by injection H as <-].
  injection H as ->. by apply llm_call_ok.
Qed.

End LLMPlanProperties.

(** * Further properties of the tools *)

Lemma keyword_set_lower query :
  Tools.keyword_set (Str.lower query) = Tools.keyword_set query.
Proof. unfold Tools.keyword_set. by rewrite lower_idem. Qed.

Lemma omap_filter_None {A B} (f : A -> option B) (P : A -> Prop)
    `{!forall x, Decision (P x)} (l : list A) :
  (forall x, ~ P x -> f x = None) -> omap f (filter P l) = omap f l.
Proof.
  intros HP. induction l as [| x l IH]; [reflexivity |].
  rewrite filter_cons. destruct (decide (P x)) as [Hx | Hx]; csimpl.
  - by rewrite IH.
  - by rewrite (HP x Hx), IH.
Qed.

Lemma filter_comm {A} (P Q : A -> Prop) `{!forall x, Decision (P x)}
    `{!forall x, Decision (Q x)} (l : list A) :
  filter P (filter Q l) = filter Q (filter P l).
Proof.
  rewrite !list_filter_filter. apply list_filter_iff. tauto.
Qed.

Section SearchDocsEdges.

Variable first_heading : string -> option string.
Variable stem : string -> string.
Variable _extract_snippet : string -> gset string -> string.
Variable _extract_key_points : string -> list string.

Local Abbreviation search_docs :=
  (Tools.search_docs first_heading stem _extract_snippet
     _extract_key_points).
Local Abbreviation doc_hit :=
  (Spec.doc_hit first_heading stem _extract_snippet _extract_key_points).
Local Abbreviation candidates :=
  (Spec.candidates first_heading stem _extract_snippet _extract_key_points).

Lemma doc_hit_no_keywords md_file : doc_hit ∅ md_file = None.
Proof.
  unfold Spec.doc_hit. destruct (Tools.read_text md_file); [| reflexivity].
  by rewrite count_matches_empty.
Qed.

(** X6.  [search_docs] returns the empty list, and does not fail, when the
    runbooks directory does not exist and when the query has no word of
    three or more letters between word boundaries. *)
Theorem search_docs_nothing_to_search (corpus : Tools.Corpus) (query : string) :
  corpus = None \/ Tools.keyword_set query = ∅ ->
  search_docs corpus query = [].
Proof.
  intros [-> | Hempty]; [reflexivity |].
  rewrite search_docs_ranked_candidates. unfold Spec.candidates.
  destruct corpus as [entries |]; [| reflexivity].
  rewrite Hempty.
  replace (omap (doc_hit ∅) (Tools.glob_md entries)) with (@nil Tools.DocHit);
    [reflexivity |].
  induction (Tools.glob_md entries) as [| f l IH]; [reflexivity |].
  csimpl. by rewrite doc_hit_no_keywords.
Qed.

(** X7.  A file that cannot be read is skipped: the result is the one of
    the directory without the unreadable entries. *)
Theorem search_docs_skips_unreadable
    (entries : list Tools.DirEntry) (query : string) :
  search_docs (Some entries) query =
  search_docs (Some (filter readable entries)) query.
Proof.
  rewrite !search_docs_ranked_candidates. unfold Spec.candidates.
  do 2 f_equal. unfold Tools.glob_md. rewrite filter_comm.
  symmetry. apply omap_filter_None.
  intros e He. unfold Spec.doc_hit, readable in *.
  destruct (Tools.read_text e); [by destruct He | reflexivity].
Qed.

Lemma candidates_filenames_sublist keywords l :
  Tools.filename <$> omap (doc_hit keywords) l `sublist_of` Tools.name <$> l.
Proof.
  induction l as [| f l IH]; [constructor |]. csimpl.
  destruct (doc_hit keywords f) as [hit |] eqn:Hhit.
  - apply doc_hit_source in Hhit as [Hname _]. rewrite fmap_cons, Hname.
    by constructor.
  - by constructor.
Qed.

(** X8.  When the names in the directory are distinct, no document is
    returned twice. *)
Theorem search_docs_no_duplicates
    (entries : list Tools.DirEntry) (query : string) :
  NoDup (Tools.name <$> entries) ->
  NoDup (Tools.filename <$> search_docs (Some entries) query).
Proof.
  intros Hnodup.
  assert (Hcand : NoDup (Tools.filename <$> candidates (Some entries) query)).
  { unfold Spec.candidates.
    apply (sublist_NoDup _ (Tools.name <$> Tools.glob_md entries));
      [| apply candidates_filenames_sublist].
    apply (sublist_NoDup _ (Tools.name <$> entries)); [exact Hnodup |].
    apply fmap_sublist. apply sublist_filter. }
  rewrite search_docs_ranked_candidates.
  apply (sublist_NoDup _
           (Tools.filename <$>
              sort_reverse Tools.relevance_score Z.ltb
                (candidates (Some entries) query))).
  - by rewrite sort_reverse_perm.
  - apply fmap_sublist. apply sublist_take.
Qed.

End SearchDocsEdges.

Lemma startswith_empty s : Str.startswith s EmptyString = true.
Proof. destruct s; reflexivity. Qed.

Lemma startswith_app s t needle :
  Str.startswith s needle = true -> Str.startswith (s +:+ t) needle = true.
Proof.
  revert needle. induction s as [| c s IH]; intros [| a needle] H;
    try apply startswith_empty; try (simpl in *; done).
  change (String c s +:+ t) with (String c (s +:+ t)).
  cbn [Str.startswith] in *. apply andb_prop in H as [Hc Hs].
  rewrite Hc. simpl. by apply IH.
Qed.

Lemma contains_app_l s t needle :
  Str.contains s needle = true -> Str.contains (s +:+ t) needle = true.
Proof.
  induction s as [| c s IH]; intros H.
  - destruct needle; [| done].
    change (EmptyString +:+ t) with t. destruct t; reflexivity.
  - change (String c s +:+ t) with (String c (s +:+ t)).
    cbn [Str.contains] in *. apply orb_prop in H as [H | H].
    + apply (startswith_app _ t) in H.
      change (String c s +:+ t) with (String c (s +:+ t)) in H.
      by rewrite H.
    + rewrite (IH H). apply orb_true_r.
Qed.

Lemma contains_app_r s t needle :
  Str.contains t needle = true -> Str.contains (s +:+ t) needle = true.
Proof.
  intros H. induction s as [| c s IH]; [exact H |].
  change (String c s +:+ t) with (String c (s +:+ t)).
  cbn [Str.contains]. rewrite IH. apply orb_true_r.
Qed.

Lemma contains_join sep l x needle :
  x ∈ l -> Str.contains x needle = true ->
  Str.contains (Str.join sep l) needle = true.
Proof.
  intros Hx Hc. induction l as [| y l IH]; [inversion Hx |].
  destruct l as [| z l].
  - apply list_elem_of_singleton in Hx as ->. exact Hc.
  - change (Str.join sep (y :: z :: l))
      with (y +:+ sep +:+ Str.join sep (z :: l)).
    apply elem_of_cons in Hx as [-> | Hx].
    + by apply contains_app_l.
    + apply contains_app_r, contains_app_r, IH, Hx.
Qed.

Lemma contains_nonempty s needle :
  needle <> EmptyString -> Str.contains s needle = true -> Str.truthy s = true.
Proof. destruct s, needle; simpl; done. Qed.

Lemma run_select_where q db incident :
  incident ∈ Tools.run_select q db -> Tools.where_ q incident = true.
Proof.
  unfold Tools.run_select, Tools.order_by_created_at_desc. intros H.
  apply elem_of_take in H as (i & H & _).
  apply list_elem_of_lookup_2 in H. rewrite sort_reverse_perm in H.
  apply list_elem_of_In, filter_In in H as [_ H]. exact H.
Qed.

Lemma keyword_nonempty query kw :
  kw ∈ elements (Tools.keyword_set query) -> kw <> EmptyString.
Proof.
  rewrite elem_of_elements. unfold Tools.keyword_set.
  rewrite elem_of_list_to_set. intros [Hlen _]%findall_words_lower ->.
  simpl in Hlen. lia.
Qed.

Section QueryIncidentsEdges.

Variable isoformat : Tools.datetime -> string.

Local Abbreviation query_incidents := (Tools.query_incidents isoformat).
Local Abbreviation to_dict := (Tools.to_dict isoformat).
Local Abbreviation hit_of := (Spec.hit_of isoformat).

(** A column that matches a keyword puts the keyword into the searchable
    text. *)
Lemma ilike_searchable incident column kw :
  kw <> EmptyString ->
  Tools.ilike column kw = true ->
  (forall v, column = Some v -> v ∈ Tools.string_values (to_dict incident)) ->
  Str.contains (Tools.searchable_text (to_dict incident)) kw = true.
Proof.
  intros Hkw Hlike Hin. destruct column as [v |]; [| discriminate].
  simpl in Hlike. unfold Tools.searchable_text.
  apply (contains_join _ _ (Str.lower v)); [| exact Hlike].
  apply list_elem_of_fmap. exists v. split; [reflexivity |].
  apply list_elem_of_In, filter_In. split.
  - apply list_elem_of_In, Hin. reflexivity.
  - destruct v; [| reflexivity].
    simpl in Hlike. destruct kw; [done | discriminate].
Qed.

Lemma any_condition_searchable keywords incident :
  (forall kw, kw ∈ elements keywords -> kw <> EmptyString) ->
  Tools.any_condition keywords incident = true ->
  exists kw,
    kw ∈ elements keywords /\
    Str.contains (Tools.searchable_text (to_dict incident)) kw = true.
Proof.
  intros Hne H. unfold Tools.any_condition in H.
  apply existsb_exists in H as (kw & Hkw%list_elem_of_In & H).
  exists kw. split; [exact Hkw |].
  pose proof (Hne kw Hkw) as Hkw'.
  repeat (apply orb_prop in H as [H | H]);
    (eapply ilike_searchable; [exact Hkw' | exact H |]);
    intros v Hv; unfold Tools.string_values, Tools.to_dict; simpl;
    try rewrite Hv; simpl;
    destruct (Tools.description incident), (Tools.service incident),
      (Tools.root_cause incident), (Tools.resolution incident),
      (Tools.resolved_at incident); simpl;
    try discriminate; try injection Hv as ->;
    apply list_elem_of_In; simpl; tauto.
Qed.

(** X9.  For a query with keywords, every incident returned matches at
    least one of them: its relevance score is at least 1, and at most the
    number of keywords. *)
Theorem query_incidents_score_bounds (query : string) (db : Tools.Storage) :
  Tools.keyword_set query <> ∅ ->
  Forall (fun h =>
            1 <= Tools.score h <= Z.of_nat (size (Tools.keyword_set query)))
    (query_incidents query db).1.
Proof.
  intros Hkeywords. rewrite query_incidents_unfold. simpl.
  apply Forall_take. rewrite sort_reverse_perm.
  apply Forall_fmap, Forall_forall. intros incident Hin.
  unfold Spec.select_for in Hin.
  rewrite bool_decide_eq_false_2 in Hin by exact Hkeywords.
  apply run_select_where in Hin. simpl in Hin.
  apply any_condition_searchable in Hin as (kw & Hkw & Hc);
    [| intros kw'; apply keyword_nonempty].
  unfold Spec.hit_of, Tools.relevance, Tools.count_matches. simpl.
  split.
  - assert (Hmem : kw ∈ filter
              (fun kw => Str.contains
                           (Tools.searchable_text (to_dict incident)) kw = true)
              (elements (Tools.keyword_set query)))
      by (by apply list_elem_of_filter).
    destruct (filter _ _); [inversion Hmem | simpl; lia].
  - apply inj_le. apply length_filter.
Qed.

Lemma list_filter_sublist {A} (f : A -> bool) (l : list A) :
  List.filter f l `sublist_of` l.
Proof.
  induction l as [| x l IH]; [constructor |]. simpl.
  destruct (f x); [by apply sublist_skip | by apply sublist_cons].
Qed.

Lemma run_select_sublist_perm q db :
  exists rows, Tools.run_select q db `sublist_of` rows /\ rows ≡ₚ
    List.filter (Tools.where_ q) db.
Proof.
  unfold Tools.run_select, Tools.order_by_created_at_desc.
  eexists. split; [apply sublist_take | apply sort_reverse_perm].
Qed.

(** X10.  When the stored incidents have distinct ids, no incident is
    returned twice. *)
Theorem query_incidents_no_duplicates (query : string) (db : Tools.Storage) :
  NoDup (Tools.inc_id <$> db) ->
  NoDup ((fun h => Tools.d_id (Tools.fields h)) <$>
           (query_incidents query db).1).
Proof.
  intros Hnodup. rewrite query_incidents_unfold. simpl.
  set (q := Spec.select_for (Tools.keyword_set query)).
  assert (Hsel : NoDup (Tools.inc_id <$> Tools.run_select q db)).
  { destruct (run_select_sublist_perm q db) as (rows & Hsub & Hperm).
    apply (sublist_NoDup _ (Tools.inc_id <$> rows));
      [| by apply fmap_sublist].
    rewrite Hperm.
    apply (sublist_NoDup _ (Tools.inc_id <$> db)); [exact Hnodup |].
    apply fmap_sublist. apply list_filter_sublist. }
  apply (sublist_NoDup _
           ((fun h => Tools.d_id (Tools.fields h)) <$>
              sort_reverse Tools.sort_key pair_ltb
                (hit_of (Tools.keyword_set query) <$> Tools.run_select q db)));
    [| apply fmap_sublist; apply sublist_take].
  rewrite sort_reverse_perm, <- list_fmap_compose. exact Hsel.
Qed.

(** X11.  Both tools ignore the letter case of the query. *)
Theorem tools_query_case_insensitive
    (first_heading : string -> option string) (stem : string -> string)
    (_extract_snippet : string -> gset string -> string)
    (_extract_key_points : string -> list string)
    (corpus : Tools.Corpus) (db : Tools.Storage) (query : string) :
  Tools.search_docs first_heading stem _extract_snippet _extract_key_points
    corpus (Str.lower query) =
  Tools.search_docs first_heading stem _extract_snippet _extract_key_points
    corpus query /\
  query_incidents (Str.lower query) db = query_incidents query db.
Proof.
  unfold Tools.search_docs, Tools.query_incidents.
  by rewrite keyword_set_lower.
Qed.

End QueryIncidentsEdges.

(** * Further properties of the job lifecycle *)

Section ProcessRequestEdges.

Variables AgentResult ToolCall : Type.
Variable create_plan : string -> result AgentPlan.
Variable execute_plan :
  string -> AgentPlan -> result (AgentResult * list ToolCall).
Variables t_start t_end : Tools.datetime.

Local Abbreviation process_request :=
  (Tasks.process_request AgentResult ToolCall create_plan execute_plan
     t_start t_end).
Local Abbreviation set_running := (Tasks.set_running AgentResult ToolCall).
Local Abbreviation set_plan := (Tasks.set_plan AgentResult ToolCall).
Local Abbreviation set_done := (Tasks.set_done AgentResult ToolCall).
Local Abbreviation set_failed := (Tasks.set_failed AgentResult ToolCall).

(** The three ways a run on a stored request ends. *)
Lemma process_request_run
    (requests : gmap string (Tasks.Request AgentResult ToolCall))
    (rid : string) (row : Tasks.Request AgentResult ToolCall) :
  requests !! rid = Some row ->
  process_request requests rid =
    match create_plan (Tasks.r_text row) with
    | Raise e =>
        (<[rid := set_failed (exn_str e) t_end (set_running t_start row)]>
           requests, Raise e)
    | Ok plan =>
        match execute_plan (Tasks.r_text row) plan with
        | Raise e =>
            (<[rid := set_failed (exn_str e) t_end
                        (set_plan plan (set_running t_start row))]> requests,
             Raise e)
        | Ok (res, tool_calls) =>
            (<[rid := set_done res tool_calls t_end
                        (set_plan plan (set_running t_start row))]> requests,
             Ok res)
        end
    end.
Proof.
  intros Hrow. unfold Tasks.process_request. rewrite Hrow.
  unfold Tasks.job_try, Tasks.attempt, Tasks.job_bind, Tasks.write,
    Tasks.commit, Tasks.read, Tasks.call, Tasks.on_exception,
    Tasks.rollback, Tasks.job_ret.
  simpl.
  destruct (create_plan (Tasks.r_text row)) as [plan | e]; simpl.
  - destruct (execute_plan (Tasks.r_text row) plan) as [[res tcs] | e]; simpl.
    + by rewrite !insert_insert_eq.
    + rewrite lookup_insert_eq. simpl. by rewrite !insert_insert_eq.
  - rewrite lookup_insert_eq. simpl. by rewrite !insert_insert_eq.
Qed.

(** X12.  When planning and execution succeed, [process_request] returns
    the answer and the stored request ends [done], with the plan, the
    tool-call log, the answer and both times recorded; an error message
    left by an earlier attempt is not cleared. *)
Theorem process_request_success
    (requests : gmap string (Tasks.Request AgentResult ToolCall))
    (rid : string) (row : Tasks.Request AgentResult ToolCall)
    (plan : AgentPlan) (res : AgentResult) (tool_calls : list ToolCall) :
  requests !! rid = Some row ->
  create_plan (Tasks.r_text row) = Ok plan ->
  execute_plan (Tasks.r_text row) plan = Ok (res, tool_calls) ->
  exists row',
    process_request requests rid = (<[rid := row']> requests, Ok res) /\
    Tasks.r_status row' = Tasks.DONE /\
    Tasks.r_plan row' = Some plan /\
    Tasks.r_tool_calls row' = tool_calls /\
    Tasks.r_result row' = Some res /\
    Tasks.r_started_at row' = Some t_start /\
    Tasks.r_completed_at row' = Some t_end /\
    Tasks.r_error row' = Tasks.r_error row /\
    Tasks.r_text row' = Tasks.r_text row.
Proof.
  intros Hrow Hplan Hexec.
  rewrite (process_request_run requests rid row Hrow), Hplan, Hexec.
  eexists. split; [reflexivity |]. simpl. auto 10.
Qed.


(** X14.  [process_request] touches no request but the one it is given: all
    other rows stay as they are, no row is created or deleted, and the text
    of the processed request is never changed. *)
Theorem process_request_frame
    (requests : gmap string (Tasks.Request AgentResult ToolCall))
    (rid : string) :
  let after := (process_request requests rid).1 in
  (forall other, other <> rid -> after !! other = requests !! other) /\
  dom after = dom requests /\
  Tasks.r_text <$> after !! rid = Tasks.r_text <$> requests !! rid.
Proof.
  destruct (requests !! rid) as [row |] eqn:Hrow.
  - rewrite (process_request_run requests rid row Hrow).
    assert (Hdom : forall row' : Tasks.Request AgentResult ToolCall,
               dom (<[rid := row']> requests) = dom requests).
    { intros row'. apply dom_insert_lookup_L. by rewrite Hrow. }
    destruct (create_plan (Tasks.r_text row)) as [plan | e];
      [destruct (execute_plan (Tasks.r_text row) plan) as [[res tcs] | e] |];
      simpl; (split; [intros other Hne; by rewrite lookup_insert_ne |]);
      (split; [apply Hdom |]); by rewrite lookup_insert_eq.
  - unfold Tasks.process_request. rewrite Hrow. simpl. by rewrite Hrow.
Qed.

(** X15.  A run on a stored request never leaves it [running]: it ends
    [done] exactly when [process_request] returns, and [failed] exactly
    when it raises, and either way with the completion time recorded. *)
Theorem process_request_terminal
    (requests : gmap string (Tasks.Request AgentResult ToolCall))
    (rid : string) (row : Tasks.Request AgentResult ToolCall) :
  requests !! rid = Some row ->
  exists row',
    (process_request requests rid).1 !! rid = Some row' /\
    Tasks.r_completed_at row' = Some t_end /\
    ((exists res,
         (process_request requests rid).2 = Ok res /\
         Tasks.r_status row' = Tasks.DONE /\
         Tasks.r_result row' = Some res) \/
     (exists e,
         (process_request requests rid).2 = Raise e /\
         Tasks.r_status row' = Tasks.FAILED /\
         Tasks.r_error row' = Some (exn_str e))).
Proof.
  intros Hrow. rewrite (process_request_run requests rid row Hrow).
  destruct (create_plan (Tasks.r_text row)) as [plan | e];
    [destruct (execute_plan (Tasks.r_text row) plan) as [[res tcs] | e] |];
    simpl; rewrite lookup_insert_eq; eexists; (split; [reflexivity |]);
    (split; [reflexivity |]); simpl; eauto 10.
Qed.

End ProcessRequestEdges.

(** * Properties of the text helpers *)

Example strip_ex :
  Text.strip ("  " +:+ tab +:+ "a b " +:+ nl) = "a b" /\
  Text.strip "   " = EmptyString.
Proof. split; reflexivity. Qed.

Example find_ex :
  Text.find "a b c" " " 2 = 3 /\ Text.find "abc" " " 1 = -1 /\
  Text.find "abc" EmptyString 5 = -1 /\
  Text.rfind "a b c" " " 3 = 1 /\ Text.rfind "a b c" " " 1 = -1.
Proof. repeat split; reflexivity. Qed.

Example slice_ex :
  Text.slice "abc" 2 (-1) = EmptyString /\ Text.slice "abc" 0 (-1) = "ab" /\
  Text.slice "abc" 5 1 = EmptyString /\ Text.slice "abcdef" 1 4 = "bcd".
Proof. repeat split; reflexivity. Qed.

Example findall_bullets_ex :
  Text.findall_lines Text.bullet_marker ("- a" +:+ nl +:+ "- b" +:+ nl) =
    ["a"; "b"] /\
  Text.findall_lines Text.bullet_marker ("-" +:+ nl +:+ "- b") = ["- b"] /\
  Text.findall_lines Text.bullet_marker "-  " = [" "] /\
  Text.findall_lines Text.bullet_marker ("- " +:+ nl) = [] /\
  Text.findall_lines Text.bullet_marker ("- " +:+ nl +:+ " " +:+ nl) = [" "] /\
  Text.findall_lines Text.bullet_marker ("* x" +:+ cr +:+ nl +:+ "* y") =
    ["x" +:+ cr; "y"] /\
  Text.findall_lines Text.bullet_marker "-a" = [] /\
  Text.findall_lines Text.bullet_marker "  - a" = [] /\
  Text.findall_lines Text.bullet_marker
    ("- " +:+ nl +:+ nl +:+ "foo" +:+ nl +:+ "- bar") = ["foo"; "bar"].
Proof. repeat split; reflexivity. Qed.

Example findall_numbered_ex :
  Text.findall_lines Text.numbered_marker
    ("1. one" +:+ nl +:+ "22. two" +:+ nl +:+ "3.x" +:+ nl +:+ "4." +:+ nl
     +:+ nl +:+ "5. five") =
  ["one"; "two"; "5. five"].
Proof. reflexivity. Qed.

Example first_heading_ex :
  Text.first_heading ("# T" +:+ nl +:+ "## S" +:+ nl +:+ "# U") = Some "T" /\
  Text.first_heading ("#" +:+ nl +:+ "# T") = Some "# T" /\
  Text.first_heading "no heading" = None.
Proof. repeat split; reflexivity. Qed.

Example extract_snippet_ex :
  Text._extract_snippet "Restart the database pool when it is exhausted."
    ["timeout"; "pool"] 20 =
  "...database pool when...".
Proof. vm_compute. reflexivity. Qed.

Lemma span_spec (p : ascii -> bool) s : forall run rest,
  Text.span p s = (run, rest) ->
  string_forallb p run = true /\
  match rest with String c _ => p c = false | EmptyString => True end.
Proof.
  induction s as [| c s IH]; intros run rest H; simpl in H.
  - by injection H as <- <-.
  - destruct (p c) eqn:Hc.
    + destruct (Text.span p s) as [run' rest'].
      injection H as <- <-. destruct (IH _ _ eq_refl) as [H1 H2].
      simpl. by rewrite Hc, H1.
    + by injection H as <- <-.
Qed.

Lemma span_app (p : ascii -> bool) t u :
  string_forallb p t = true ->
  match u with String c _ => p c = false | EmptyString => True end ->
  Text.span p (t +:+ u) = (t, u).
Proof.
  intros Ht Hu. induction t as [| c t IH].
  - change (EmptyString +:+ u) with u.
    destruct u as [| d u]; simpl; [reflexivity | by rewrite Hu].
  - change (String c t +:+ u) with (String c (t +:+ u)).
    simpl in Ht. apply andb_prop in Ht as [Hc Ht].
    cbn [Text.span]. by rewrite Hc, (IH Ht).
Qed.

Lemma space_not_newline c : Text.is_space c = false -> Text.is_newline c = false.
Proof. destruct c as [[] [] [] [] [] [] [] []]; simpl; done. Qed.

Lemma last_line_char_spec s i c :
  Text.last_line_char s = Some (i, c) -> Text.is_newline c = false.
Proof.
  revert i. induction s as [| d s IH]; intros i H; simpl in H; [done |].
  destruct (Text.last_line_char s) as [[j e] |].
  - injection H as _ <-. by eapply IH.
  - destruct (Text.is_newline d) eqn:Hd; [done |]. by injection H as _ <-.
Qed.

Lemma match_text_one_line r g n :
  Text.match_text r = Some (g, n) -> one_line g.
Proof.
  unfold Text.match_text.
  destruct (Text.span Text.is_space r) as [ws rest] eqn:Hws.
  destruct ws as [| w ws']; [done |].
  destruct (span_spec _ _ _ _ Hws) as [_ Hrest].
  destruct rest as [| c rest].
  - destruct (Text.last_line_char ws') as [[i d] |] eqn:Hl; [| done].
    intros [= <- _]. split; [done |].
    simpl. by rewrite (last_line_char_spec _ _ _ Hl).
  - destruct (Text.span _ (String c rest)) as [group tail] eqn:Hg.
    intros [= <- _].
    destruct (span_spec _ _ _ _ Hg) as [Hall _]. split; [| exact Hall].
    simpl in Hg. rewrite (space_not_newline c Hrest) in Hg. simpl in Hg.
    destruct (Text.span _ rest). by injection Hg as <- _.
Qed.

Lemma findall_items_one_line marker s : forall at_bol skip,
  Forall one_line (Text.findall_items marker at_bol skip s).
Proof.
  induction s as [| c s IH]; intros at_bol skip; simpl; [constructor |].
  destruct skip as [| k]; [| apply IH].
  destruct (if at_bol then Text.match_item marker (String c s) else None)
    as [[g n] |] eqn:Hm; [| apply IH].
  constructor; [| apply IH].
  destruct at_bol; [| done]. unfold Text.match_item in Hm.
  destruct (marker (String c s)) as [[r m] |]; [| done].
  destruct (Text.match_text r) as [[g' n'] |] eqn:Ht; [| done].
  injection Hm as <- _. by eapply match_text_one_line.
Qed.

Lemma key_points_untruncated content :
  Text._extract_key_points content =
    take 5 (Text.findall_lines Text.bullet_marker content) ++
    take 5 (Text.findall_lines Text.numbered_marker content) /\
  (length (Text._extract_key_points content) <= 10)%nat.
Proof.
  unfold Text._extract_key_points. simpl app.
  assert (Hlen : (length
            (take 5 (Text.findall_lines Text.bullet_marker content) ++
             take 5 (Text.findall_lines Text.numbered_marker content))
          <= 10)%nat)
    by (rewrite length_app, !length_take; lia).
  rewrite take_ge by exact Hlen. by split.
Qed.

(** X16.  The key points are the first five bullet texts followed by the
    first five numbered texts, so there are at most ten and the final cut
    to ten never drops one; each key point is a non-empty piece of one
    line. *)
Theorem extract_key_points_shape (content : string) :
  Text._extract_key_points content =
    take 5 (Text.findall_lines Text.bullet_marker content) ++
    take 5 (Text.findall_lines Text.numbered_marker content) /\
  (length (Text._extract_key_points content) <= 10)%nat /\
  Forall (fun kp =>
            kp <> EmptyString /\
            string_forallb (fun c => negb (Text.is_newline c)) kp = true)
    (Text._extract_key_points content).
Proof.
  destruct (key_points_untruncated content) as [Heq Hlen].
  split; [exact Heq |]. split; [exact Hlen |].
  rewrite Heq. apply Forall_app.
  split; apply Forall_take, findall_items_one_line.
Qed.

Lemma append_cons c s t : String c s +:+ t = String c (s +:+ t).
Proof. reflexivity. Qed.

Lemma append_nil_l t : EmptyString +:+ t = t.
Proof. reflexivity. Qed.

Lemma length_append s t :
  String.length (s +:+ t) = (String.length s + String.length t)%nat.
Proof.
  induction s as [| c s IH]; [reflexivity |].
  rewrite append_cons. simpl. by rewrite IH.
Qed.

Lemma no_newline_app s t : no_newline s -> no_newline t -> no_newline (s +:+ t).
Proof.
  unfold no_newline. intros Hs Ht. induction s as [| c s IH]; [exact Ht |].
  rewrite append_cons. simpl in *. apply andb_prop in Hs as [Hc Hs].
  by rewrite Hc, IH.
Qed.

(** White space and then the text of a line: the group is that text. *)
Lemma match_text_line t u :
  line_text t -> line_end u ->
  Text.match_text (" " +:+ t +:+ u) = Some (t, S (String.length t)).
Proof.
  intros [Hline Hhead] Hu. unfold Text.match_text.
  destruct t as [| c t]; [done |].
  assert (Hspan : Text.span Text.is_space (" " +:+ String c t +:+ u) =
                  (" ", String c t +:+ u)).
  { apply (span_app Text.is_space " "); [reflexivity |].
    rewrite append_cons. exact Hhead. }
  rewrite Hspan. rewrite append_cons.
  rewrite <- append_cons.
  rewrite (span_app (fun c => negb (Text.is_newline c)) (String c t) u).
  - reflexivity.
  - exact Hline.
  - destruct u; [done |]. unfold line_end in Hu. by rewrite Hu.
Qed.

(** Passing over characters of a line where no match is attempted. *)
Lemma findall_items_skip marker u rest :
  no_newline u ->
  Text.findall_items marker false (String.length u) (u +:+ rest) =
  Text.findall_items marker false 0 rest.
Proof.
  unfold no_newline. induction u as [| c u IH]; intros Hu; [reflexivity |].
  rewrite append_cons. simpl in *. apply andb_prop in Hu as [Hc Hu].
  apply negb_true_iff in Hc. rewrite Hc. by apply IH.
Qed.

Lemma findall_items_rest_of_line marker u c rest :
  no_newline u -> Text.is_newline c = true ->
  Text.findall_items marker false 0 (u +:+ String c rest) =
  Text.findall_items marker true 0 rest.
Proof.
  unfold no_newline. intros Hu Hc. induction u as [| d u IH].
  - rewrite append_nil_l. simpl. by rewrite Hc.
  - rewrite append_cons. simpl in *. apply andb_prop in Hu as [Hd Hu].
    apply negb_true_iff in Hd. rewrite Hd. by apply IH.
Qed.

(** A line that matches as a whole contributes its group. *)
Lemma findall_items_hit marker line t c rest :
  line <> EmptyString -> no_newline line -> Text.is_newline c = true ->
  Text.match_item marker (line +:+ String c rest) =
    Some (t, String.length line) ->
  Text.findall_items marker true 0 (line +:+ String c rest) =
  t :: Text.findall_items marker true 0 rest.
Proof.
  intros Hne Hline Hc Hm. destruct line as [| d line]; [done |].
  rewrite append_cons in *. cbn [Text.findall_items]. rewrite Hm. f_equal.
  unfold no_newline in Hline. simpl in Hline.
  apply andb_prop in Hline as [Hd Hline]. apply negb_true_iff in Hd.
  rewrite Hd. simpl String.length. rewrite Nat.sub_1_r. simpl Nat.pred.
  rewrite findall_items_skip by exact Hline.
  by apply (findall_items_rest_of_line marker EmptyString).
Qed.

(** A line that does not match contributes nothing. *)
Lemma findall_items_miss marker line c rest :
  no_newline line -> Text.is_newline c = true ->
  Text.match_item marker (line +:+ String c rest) = None ->
  Text.findall_items marker true 0 (line +:+ String c rest) =
  Text.findall_items marker true 0 rest.
Proof.
  intros Hline Hc Hm. destruct line as [| d line].
  - rewrite append_nil_l in *. cbn [Text.findall_items]. by rewrite Hm, Hc.
  - rewrite append_cons in *. cbn [Text.findall_items]. rewrite Hm.
    unfold no_newline in Hline. simpl in Hline.
    apply andb_prop in Hline as [Hd Hline]. apply negb_true_iff in Hd.
    rewrite Hd. by apply findall_items_rest_of_line.
Qed.

Lemma append_assoc s t u : (s +:+ t) +:+ u = s +:+ t +:+ u.
Proof.
  induction s as [| c s IH]; [reflexivity |].
  by rewrite !append_cons, IH.
Qed.

Lemma marked_line_shape mark t rest :
  (mark +:+ " " +:+ t) +:+ String (Ascii.ascii_of_nat 10) rest =
  mark +:+ " " +:+ t +:+ nl +:+ rest.
Proof. by rewrite !append_assoc. Qed.

Lemma marked_line_no_newline mark t :
  no_newline mark -> line_text t -> no_newline (mark +:+ " " +:+ t).
Proof.
  intros Hmark [Ht _]. apply no_newline_app; [exact Hmark |].
  by apply (no_newline_app " ").
Qed.

Lemma findall_bullets_lines items :
  Forall line_text items ->
  Text.findall_items Text.bullet_marker true 0 (bullet_lines items) = items.
Proof.
  induction 1 as [| t items Ht _ IH]; [reflexivity |].
  change (bullet_lines (t :: items))
    with ("-" +:+ " " +:+ t +:+ nl +:+ bullet_lines items).
  rewrite <- marked_line_shape.
  rewrite (findall_items_hit _ _ t); [by rewrite IH | done | | done |].
  - by apply marked_line_no_newline.
  - rewrite marked_line_shape. unfold Text.match_item.
    change (Text.bullet_marker ("-" +:+ " " +:+ t +:+ nl +:+ bullet_lines items))
      with (Some (" " +:+ t +:+ nl +:+ bullet_lines items, 1%nat)).
    cbv beta iota. rewrite match_text_line by done.
    by rewrite !length_append.
Qed.

Lemma findall_numbered_lines items :
  Forall line_text items ->
  Text.findall_items Text.numbered_marker true 0 (bullet_lines items) = [].
Proof.
  induction 1 as [| t items Ht _ IH]; [reflexivity |].
  change (bullet_lines (t :: items))
    with ("-" +:+ " " +:+ t +:+ nl +:+ bullet_lines items).
  rewrite <- marked_line_shape.
  rewrite findall_items_miss; [exact IH | | done |].
  - by apply marked_line_no_newline.
  - rewrite marked_line_shape. reflexivity.
Qed.

(** X17.  A runbook in the documented format parses as documented: for a
    heading line [# title] followed by bullet lines [- item], the title
    search finds the title and the key points are the first five items, in
    order. *)
Theorem runbook_format_parses (title : string) (items : list string) :
  line_text title -> Forall line_text items ->
  Text.first_heading (runbook title items) = Some title /\
  Text._extract_key_points (runbook title items) = take 5 items.
Proof.
  intros Htitle Hitems.
  assert (Hshape : runbook title items =
            ("#" +:+ " " +:+ title) +:+
            String (Ascii.ascii_of_nat 10) (bullet_lines items))
    by (by rewrite marked_line_shape).
  assert (Hline : no_newline ("#" +:+ " " +:+ title))
    by (by apply marked_line_no_newline).
  split.
  - unfold Text.first_heading, Text.findall_lines. rewrite Hshape.
    rewrite (findall_items_hit _ _ title); [reflexivity | done | done | done |].
    rewrite marked_line_shape. unfold Text.match_item.
    change (Text.heading_marker
              ("#" +:+ " " +:+ title +:+ nl +:+ bullet_lines items))
      with (Some (" " +:+ title +:+ nl +:+ bullet_lines items, 1%nat)).
    cbv beta iota. rewrite match_text_line by done.
    by rewrite !length_append.
  - destruct (key_points_untruncated (runbook title items)) as [-> _].
    unfold Text.findall_lines. rewrite Hshape.
    rewrite !findall_items_miss;
      [| done | done | by rewrite marked_line_shape
       | done | done | by rewrite marked_line_shape].
    rewrite findall_bullets_lines, findall_numbered_lines by done.
    by rewrite app_nil_r.
Qed.

Lemma runbook_format_parses_witness :
  let title := "Database connection timeouts" in
  let items := ["Check the pool size"; "Raise the timeout"] in
  line_text title /\ Forall line_text items /\
  Text.first_heading (runbook title items) = Some title /\
  Text._extract_key_points (runbook title items) = take 5 items.
Proof.
  assert (Ht : line_text "Database connection timeouts") by (by split).
  assert (Hi : Forall line_text ["Check the pool size"; "Raise the timeout"])
    by (repeat constructor).
  split; [exact Ht |]. split; [exact Hi |].
  exact (runbook_format_parses _ _ Ht Hi).
Defined.

(** ** The snippet *)

Lemma index_of_None s needle :
  Text.index_of s needle = None <-> Str.contains s needle = false.
Proof.
  induction s as [| c s IH].
  - destruct needle; simpl; split; done.
  - cbn [Text.index_of Str.contains].
    destruct (Str.startswith (String c s) needle); simpl; [split; done |].
    rewrite <- IH. destruct (Text.index_of s needle); simpl; split; done.
Qed.


Lemma length_lstrip s : (String.length (Text.lstrip s) <= String.length s)%nat.
Proof.
  induction s as [| c s IH]; simpl; [lia |].
  destruct (Text.is_space c); simpl; lia.
Qed.

Lemma length_rstrip s : (String.length (Text.rstrip s) <= String.length s)%nat.
Proof.
  induction s as [| c s IH]; simpl; [lia |].
  destruct (Text.rstrip s); [destruct (Text.is_space c) |]; simpl in *; lia.
Qed.

Lemma length_strip s : (String.length (Text.strip s) <= String.length s)%nat.
Proof.
  unfold Text.strip.
  pose proof (length_rstrip (Text.lstrip s)). pose proof (length_lstrip s). lia.
Qed.

Lemma length_str_take n s : (String.length (Str.take n s) <= n)%nat.
Proof.
  revert s. induction n as [| n IH]; intros [| c s]; simpl; try lia.
  specialize (IH s). lia.
Qed.



Lemma first_snippet_None content n keywords :
  Forall (fun kw => Str.contains (Str.lower content) kw = false) keywords ->
  Text.first_snippet content (Str.lower content) n keywords = None.
Proof.
  induction 1 as [| kw kws Hkw _ IH]; [reflexivity |]. simpl.
  apply index_of_None in Hkw. by rewrite Hkw.
Qed.

Lemma first_snippet_Some content n keywords :
  Exists (fun kw => Str.contains (Str.lower content) kw = true) keywords ->
  exists kw pos,
    kw ∈ keywords /\
    Text.index_of (Str.lower content) kw = Some pos /\
    Text.first_snippet content (Str.lower content) n keywords =
      Some (Text.snippet_around content n (Z.of_nat pos)).
Proof.
  induction keywords as [| kw kws IH]; intros H; [inversion H |]. simpl.
  destruct (Text.index_of (Str.lower content) kw) as [pos |] eqn:Hpos.
  - exists kw, pos. split; [left | done].
  - apply Exists_cons in H as [H | H].
    + apply index_of_None in Hpos. congruence.
    + destruct (IH H) as (kw' & pos & Hin & Hidx & Hs).
      exists kw', pos. split; [by right | done].
Qed.

(** X18.  When no keyword occurs in the document, the snippet is the start
    of the document: its first [context_chars] characters, stripped, with
    an ellipsis behind; it has at most [context_chars + 3] characters. *)
Theorem extract_snippet_fallback
    (content : string) (keywords : list string) (context_chars : nat) :
  Forall (fun kw => Str.contains (Str.lower content) kw = false) keywords ->
  Text._extract_snippet content keywords context_chars =
    Text.strip (Str.take context_chars content) +:+ "..." /\
  (String.length (Text._extract_snippet content keywords context_chars)
   <= context_chars + 3)%nat.
Proof.
  intros Hnone. unfold Text._extract_snippet.
  rewrite first_snippet_None by exact Hnone.
  split; [reflexivity |]. rewrite length_append. simpl.
  pose proof (length_strip (Str.take context_chars content)).
  pose proof (length_str_take context_chars content). lia.
Qed.

Lemma extract_snippet_fallback_witness :
  let content := "  Restart the worker.  " in
  Forall (fun kw => Str.contains (Str.lower content) kw = false)
    ["database"; "timeout"] /\
  Text._extract_snippet content ["database"; "timeout"] 200 =
    "Restart the worker...." /\
  (String.length (Text._extract_snippet content ["database"; "timeout"] 200)
   <= 200 + 3)%nat.
Proof.
  assert (H : Forall (fun kw =>
                        Str.contains (Str.lower "  Restart the worker.  ") kw
                        = false) ["database"; "timeout"])
    by (repeat constructor).
  split; [exact H |].
  exact (extract_snippet_fallback _ _ 200 H).
Defined.



Lemma count_matches_positive keywords text :
  0 < Tools.count_matches keywords text ->
  Exists (fun kw => Str.contains text kw = true) (elements keywords).
Proof.
  unfold Tools.count_matches. intros H.
  destruct (filter _ (elements keywords)) as [| kw l] eqn:Hf;
    [simpl in H; lia |].
  assert (Hkw : kw ∈ filter (fun kw => Str.contains text kw = true)
                      (elements keywords)) by (rewrite Hf; left).
  apply list_elem_of_filter in Hkw as [Hc Hin].
  apply Exists_exists. eauto.
Qed.

Lemma snippet_around_ellipsis content n pos :
  exists body, Text.snippet_around content n pos = body +:+ "...".
Proof.
  unfold Text.snippet_around. destruct (0 <? _); [| eauto].
  eexists. by rewrite <- append_assoc.
Qed.

Section DocumentHits.

Variable stem : string -> string.

Local Abbreviation snippet_of :=
  (fun content keywords => Text._extract_snippet content (elements keywords) 200).
Local Abbreviation doc_hit :=
  (Spec.doc_hit Text.first_heading stem snippet_of Text._extract_key_points).

Lemma doc_hit_fields keywords md_file hit :
  doc_hit keywords md_file = Some hit ->
  exists content,
    Tools.read_text md_file = Ok content /\
    0 < Tools.count_matches keywords (Str.lower content) /\
    hit = Tools.mkDocHit (Tools.name md_file)
            (default (stem (Tools.name md_file)) (Text.first_heading content))
            (Text._extract_snippet content (elements keywords) 200)
            (Text._extract_key_points content)
            (Tools.count_matches keywords (Str.lower content)).
Proof.
  unfold Spec.doc_hit.
  destruct (Tools.read_text md_file) as [content |]; [| done].
  destruct (Z.ltb_spec 0 (Tools.count_matches keywords (Str.lower content)));
    [| done].
  intros [= <-]. exists content. split; [done |]. split; [done |].
  by destruct (Text.first_heading content).
Qed.

(** X20.  What a hit of [search_docs] holds: its score is positive, so a
    keyword of the query occurs in the document and the snippet is cut
    around the first occurrence of such a keyword, never the start of the
    document by default; the snippet ends in an ellipsis; the key points
    are those of the document, at most ten; and the title is the first
    heading, or the stem of the file name when there is none. *)
Theorem search_docs_hit_content (corpus : Tools.Corpus) (query : string) :
  Forall (fun hit =>
            exists entries md_file content kw pos,
              corpus = Some entries /\ md_file ∈ entries /\
              Tools.name md_file = Tools.filename hit /\
              Tools.read_text md_file = Ok content /\
              kw ∈ Tools.keyword_set query /\
              Text.index_of (Str.lower content) kw = Some pos /\
              Tools.snippet hit =
                Text.snippet_around content 200 (Z.of_nat pos) /\
              (exists body, Tools.snippet hit = body +:+ "...") /\
              Tools.key_points hit = Text._extract_key_points content /\
              (length (Tools.key_points hit) <= 10)%nat /\
              Tools.title hit =
                default (stem (Tools.name md_file))
                  (Text.first_heading content))
    (Text.search_docs stem corpus query).
Proof.
  apply Forall_forall. intros hit Hhit. unfold Text.search_docs in Hhit.
  apply elem_of_search_docs, elem_of_candidates in Hhit
    as (entries & f & -> & Hf & _ & Hhit).
  apply doc_hit_fields in Hhit as (content & Hread & Hpos & ->).
  apply count_matches_positive in Hpos.
  destruct (first_snippet_Some content 200 _ Hpos)
    as (kw & pos & Hkw & Hidx & Hsnip).
  exists entries, f, content, kw, pos. simpl.
  assert (Hs : Text._extract_snippet content
                 (elements (Tools.keyword_set query)) 200 =
               Text.snippet_around content 200 (Z.of_nat pos))
    by (unfold Text._extract_snippet; by rewrite Hsnip).
  rewrite Hs.
  repeat split; try done.
  - by apply elem_of_elements.
  - apply snippet_around_ellipsis.
  - apply key_points_untruncated.
Qed.

End DocumentHits.

(** * Properties of the health check and of the evaluation harness *)

Lemma unhealthy_contains_healthy msg :
  Str.contains ("unhealthy: " +:+ msg) "healthy" = true.
Proof. by apply (contains_app_l "unhealthy: "). Qed.

Lemma pending_contains_healthy rest :
  Str.contains ("healthy (" +:+ rest) "healthy" = true.
Proof. by apply (contains_app_l "healthy ("). Qed.

(** X21.  [health_check] reports the overall status [healthy] whatever the
    probes do, never [degraded]: the message of a failed probe starts with
    [unhealthy], which contains the word the check looks for.  The failed
    probe is still named in the services. *)
Theorem health_check_always_healthy
    (db_execute redis_ping : result unit) (queue_len : result nat)
    (utcnow : Tools.datetime) :
  let response :=
    Routes.health_check db_execute redis_ping queue_len utcnow in
  Routes.h_status response = "healthy" /\
  (Routes.h_services response).*1 = ["database"; "redis"; "queue"] /\
  (forall e, db_execute = Raise e ->
     ("database", "unhealthy: " +:+ exn_str e) ∈ Routes.h_services response) /\
  (forall e, redis_ping = Raise e ->
     ("redis", "unhealthy: " +:+ exn_str e) ∈ Routes.h_services response) /\
  (forall e, queue_len = Raise e ->
     ("queue", "unhealthy: " +:+ exn_str e) ∈ Routes.h_services response).
Proof.
  unfold Routes.health_check. cbn -[Str.contains String.append pretty].
  split.
  - destruct db_execute, redis_ping, queue_len;
      rewrite ?unhealthy_contains_healthy, ?pending_contains_healthy;
      reflexivity.
  - split; [reflexivity |].
    repeat split; intros e ->; apply list_elem_of_In; simpl; auto.
Qed.

Section EvaluationProperties.

Variable jsonschema_validate : Eval.ResultDict -> Eval.SchemaOutcome.
Variable execute_plan : string -> AgentPlan -> result Eval.ResultDict.

Local Abbreviation validate_result := (Eval.validate_result jsonschema_validate).

(** X22.  [validate_result] reports no error exactly when the result
    matches the schema, has a summary and steps, and has a source if any
    kind of source is expected.  Which kind is expected makes no
    difference: sources of the other kind satisfy it. *)
Theorem validate_result_clean
    (r : Eval.ResultDict) (expects_docs expects_incidents : bool) :
  validate_result r expects_docs expects_incidents = Ok [] <->
  jsonschema_validate r = Eval.SchemaValid /\
  Eval.summary r <> EmptyString /\
  Eval.narrated_steps r <> [] /\
  (expects_docs = true \/ expects_incidents = true -> Eval.sources r <> []).
Proof.
  unfold Eval.validate_result.
  destruct (jsonschema_validate r), (Eval.summary r), (Eval.narrated_steps r),
    expects_docs, expects_incidents, (Eval.sources r); simpl;
    split; try done; try (intros (? & ? & ? & ?); done);
    try (intros (? & ? & ? & H); exfalso; apply H; auto);
    intros _; repeat split; try done; intros [? | ?]; done.
Qed.

Lemma validate_result_errors r d i errs e :
  validate_result r d i = Ok errs -> e ∈ errs ->
  e <> "Planner produced empty plan".
Proof.
  unfold Eval.validate_result.
  destruct (jsonschema_validate r), (Str.truthy (Eval.summary r)),
    (Eval.is_empty (Eval.narrated_steps r)), d, i,
    (Eval.is_empty (Eval.sources r)); simpl; intros [= <-] He;
    repeat (apply elem_of_cons in He as [-> | He]; [done |]);
    inversion He.
Qed.

(** X23.  An evaluation passes exactly when the planner returns a plan
    with at least one step, the executor returns a result, and
    [validate_result] finds nothing wrong with it; absent expectations
    count as set. *)
Theorem run_single_eval_passed
    (create_plan : string -> result AgentPlan) (p : Eval.PromptData) :
  Eval.passed
    (Eval.run_single_eval jsonschema_validate create_plan execute_plan p)
  = true <->
  exists plan r,
    create_plan (Eval.p_prompt p) = Ok plan /\
    steps plan <> [] /\
    execute_plan (Eval.p_prompt p) plan = Ok r /\
    validate_result r (default true (Eval.p_expects_docs p))
      (default true (Eval.p_expects_incidents p)) = Ok [].
Proof.
  unfold Eval.run_single_eval, Eval.attempt. split.
  - intros Hpass.
    destruct (create_plan (Eval.p_prompt p)) as [plan |]; [| done].
    destruct (steps plan) as [| s l] eqn:Hsteps;
      destruct (execute_plan (Eval.p_prompt p) plan) as [r |] eqn:Hexec;
      try done;
      destruct (validate_result r _ _) as [[| e errs] |] eqn:Hv; try done.
    exists plan, r. rewrite Hsteps. done.
  - intros (plan & r & -> & Hne & -> & ->).
    destruct (steps plan); done.
Qed.

(** X24.  With the deterministic planner the harness never reports an
    empty plan, whatever the executor and the validation do. *)
Theorem run_single_eval_deterministic_plan (p : Eval.PromptData) :
  "Planner produced empty plan" ∉
    Eval.errors
      (Eval.run_single_eval jsonschema_validate deterministic_planner
         execute_plan p).
Proof.
  unfold Eval.run_single_eval, Eval.attempt, deterministic_planner.
  destruct (deterministic_plan_well_shaped (Eval.p_prompt p)) as [Hne _].
  destruct (steps (Planner._create_deterministic_plan (Eval.p_prompt p)))
    as [| s l]; [done |]. simpl.
  destruct (execute_plan _ _) as [r |]; simpl.
  - destruct (validate_result r _ _) as [errs |] eqn:Hv; simpl.
    + intros He. by eapply validate_result_errors.
    + intros He. apply list_elem_of_singleton in He. done.
  - intros He. apply list_elem_of_singleton in He. done.
Qed.

End EvaluationProperties.

(** * Instances *)

Lemma create_plan_llm_plan_validated_witness :
  let env := Planner.mkEnviron (Some "true") (Some "sk-test") None in
  let text := "Past outages" in
  Planner.create_plan "You are a planner. " " Respond with JSON."
    answering sample_loads sample_validate env text = Ok llm_plan /\
  llm_plan <> Planner._create_deterministic_plan text /\
  Planner.use_llm env = true /\
  Planner.api_key_of env <> EmptyString.
Proof.
  assert (H1 : Planner.create_plan "You are a planner. " " Respond with JSON."
                 answering sample_loads sample_validate
                 (Planner.mkEnviron (Some "true") (Some "sk-test") None)
                 "Past outages" = Ok llm_plan) by reflexivity.
  assert (H2 : llm_plan <> Planner._create_deterministic_plan "Past outages")
    by (intros H; vm_compute in H; discriminate H).
  split; [exact H1 |]. split; [exact H2 |].
  destruct (create_plan_llm_plan_validated _ _ _ _ _ _ _ _ H1 H2)
    as (Hllm & Hkey & _).
  split; [exact Hllm | exact Hkey].
Defined.

Lemma search_docs_nothing_to_search_witness :
  Tools.keyword_set "is it up?" = ∅ /\
  Tools.search_docs no_heading whole_name no_snippet no_key_points
    sample_corpus "is it up?" = [].
Proof.
  assert (H : Tools.keyword_set "is it up?" = ∅) by reflexivity.
  split; [exact H |].
  exact (search_docs_nothing_to_search no_heading whole_name no_snippet
           no_key_points sample_corpus "is it up?" (or_intror H)).
Defined.

Lemma search_docs_no_duplicates_witness :
  let entries :=
    [ Tools.mkDirEntry "cache.md" (Ok "Flush the cache after a timeout.");
      Tools.mkDirEntry "queue.md" (Ok "Queue timeout settings") ] in
  NoDup (Tools.name <$> entries) /\
  NoDup (Tools.filename <$>
           Tools.search_docs no_heading whole_name no_snippet no_key_points
             (Some entries) "timeout").
Proof.
  assert (H : NoDup (Tools.name <$>
                       [ Tools.mkDirEntry "cache.md"
                           (Ok "Flush the cache after a timeout.");
                         Tools.mkDirEntry "queue.md"
                           (Ok "Queue timeout settings") ])).
  { simpl. apply NoDup_cons. split; [| apply NoDup_singleton].
    intros Hin. apply list_elem_of_singleton in Hin. discriminate Hin. }
  split; [exact H |].
  exact (search_docs_no_duplicates no_heading whole_name no_snippet
           no_key_points _ "timeout" H).
Defined.

Lemma sample_keywords_nonempty : Tools.keyword_set "Database timeout?" <> ∅.
Proof. intros H%(f_equal elements). vm_compute in H. discriminate H. Defined.

Lemma query_incidents_score_bounds_witness :
  Tools.keyword_set "Database timeout?" <> ∅ /\
  Forall (fun h =>
            1 <= Tools.score h <=
            Z.of_nat (size (Tools.keyword_set "Database timeout?")))
    (Tools.query_incidents sample_isoformat "Database timeout?"
       sample_incidents).1.
Proof.
  split; [exact sample_keywords_nonempty |].
  exact (query_incidents_score_bounds sample_isoformat "Database timeout?"
           sample_incidents sample_keywords_nonempty).
Defined.

Lemma query_incidents_no_duplicates_witness :
  NoDup (Tools.inc_id <$> sample_incidents) /\
  NoDup ((fun h => Tools.d_id (Tools.fields h)) <$>
           (Tools.query_incidents sample_isoformat "Database timeout?"
              sample_incidents).1).
Proof.
  assert (H : NoDup (Tools.inc_id <$> sample_incidents)).
  { simpl. apply NoDup_cons. split; [| apply NoDup_singleton].
    intros Hin. apply list_elem_of_singleton in Hin. discriminate Hin. }
  split; [exact H |].
  exact (query_incidents_no_duplicates sample_isoformat "Database timeout?"
           sample_incidents H).
Defined.

Lemma process_request_success_witness :
  let requests : gmap string (Tasks.Request string string) :=
    {[ "r1" := queued_request "Past outages" ]} in
  let t_start := Tools.mkDatetime 100 0 in
  let t_end := Tools.mkDatetime 160 0 in
  requests !! "r1" = Some (queued_request "Past outages") /\
  exists row',
    Tasks.process_request string string deterministic_planner
      answering_executor t_start t_end requests "r1" =
      (<["r1" := row']> requests, Ok "Restart the pool.") /\
    Tasks.r_status row' = Tasks.DONE /\
    Tasks.r_plan row' =
      Some (Planner._create_deterministic_plan "Past outages") /\
    Tasks.r_tool_calls row' = ["search_docs"; "query_incidents"] /\
    Tasks.r_result row' = Some "Restart the pool." /\
    Tasks.r_started_at row' = Some t_start /\
    Tasks.r_completed_at row' = Some t_end /\
    Tasks.r_error row' = None /\
    Tasks.r_text row' = "Past outages".
Proof.
  split; [reflexivity |].
  apply (process_request_success string string deterministic_planner
           answering_executor (Tools.mkDatetime 100 0) (Tools.mkDatetime 160 0)
           {[ "r1" := queued_request "Past outages" ]} "r1"
           (queued_request "Past outages")
           (Planner._create_deterministic_plan "Past outages")
           "Restart the pool." ["search_docs"; "query_incidents"]);
    reflexivity.
Defined.


Lemma process_request_terminal_witness :
  let requests : gmap string (Tasks.Request string string) :=
    {[ "r1" := queued_request "Past outages" ]} in
  let run :=
    Tasks.process_request string string deterministic_planner
      failing_executor (Tools.mkDatetime 100 0) (Tools.mkDatetime 160 0)
      requests "r1" in
  requests !! "r1" = Some (queued_request "Past outages") /\
  exists row',
    run.1 !! "r1" = Some row' /\
    Tasks.r_completed_at row' = Some (Tools.mkDatetime 160 0) /\
    ((exists res,
         run.2 = Ok res /\ Tasks.r_status row' = Tasks.DONE /\
         Tasks.r_result row' = Some res) \/
     (exists e,
         run.2 = Raise e /\ Tasks.r_status row' = Tasks.FAILED /\
         Tasks.r_error row' = Some (exn_str e))).
Proof.
  split; [reflexivity |].
  apply (process_request_terminal string string deterministic_planner
           failing_executor (Tools.mkDatetime 100 0) (Tools.mkDatetime 160 0)
           {[ "r1" := queued_request "Past outages" ]} "r1"
           (queued_request "Past outages")).
  reflexivity.
Defined.

Example health_check_ex :
  Routes.h_status
    (Routes.health_check (Raise (Exception "connection refused"))
       (Raise (Exception "timeout")) (Raise (Exception "timeout"))
       (Tools.mkDatetime 100 0)) = "healthy".
Proof. reflexivity. Qed.

Example extract_key_points_ex :
  Text._extract_key_points
    ("# Title" +:+ nl +:+ "1. first" +:+ nl +:+ "- a" +:+ nl +:+ "2. second"
     +:+ nl +:+ "* b" +:+ nl) =
  ["a"; "b"; "first"; "second"].
Proof. reflexivity. Qed.
